(** * webp2mp4: the conversion strategy selector and its two converters

    A shallow embedding of [main.go].  The program is a driver around two
    external tools (ffmpeg and ImageMagick's convert), so the embedding is
    a small state-and-log monad: the state is the part of the filesystem
    the program manipulates (directory listings), the log records every
    command the program runs, every line it prints and every converter
    it enters.  Everything the program cannot decide by itself (what a
    process exits with, what an image header holds, whether a path exists)
    is read from an environment record [Env], over which all theorems
    quantify. *)

From Stdlib Require Import ZArith List String Ascii Bool Lia.
From Stdlib Require Import DecimalString Sorted OrderedTypeEx.
Import ListNotations.

Open Scope string_scope.
Open Scope Z_scope.

(** ** Go values *)

(** Go's [int] on the 64-bit platforms the tool is released for: a
    two's-complement 64-bit integer, modelled in [Z] with the wrap-around
    of [+] written out. *)
Module GoInt.

Definition bits : Z := 64.
Definition min_int : Z := - 2 ^ (bits - 1).
Definition max_int : Z := 2 ^ (bits - 1) - 1.

Definition in_range (n : Z) : Prop := min_int <= n <= max_int.

Definition wrap (n : Z) : Z := (n - min_int) mod 2 ^ bits + min_int.

Definition add (a b : Z) : Z := wrap (a + b).

(** [a % b]: the remainder of the division truncated towards zero. *)
Definition rem (a b : Z) : Z := Z.rem a b.

(** [fmt.Sprintf("%d", n)] *)
Definition itoa (n : Z) : string := NilZero.string_of_int (Z.to_int n).

End GoInt.

(** Go's [error] values as [fmt.Errorf] and [errors.New] build them: a
    plain message, or a message wrapping the error given to [%w].  In
    both cases [msg] is the complete text [Error()] returns. *)
Inductive error : Type :=
| errorString (msg : string)
| wrapError (msg : string) (cause : error).

Definition Error (e : error) : string :=
  match e with
  | errorString msg => msg
  | wrapError msg _ => msg
  end.

Definition Unwrap (e : error) : option error :=
  match e with
  | errorString _ => None
  | wrapError _ cause => Some cause
  end.

Definition nl : string := String (ascii_of_nat 10) EmptyString.

(** [fmt.Errorf(prefix + "%w", cause)] *)
Definition Errorf_w (prefix : string) (cause : error) : error :=
  wrapError (prefix ++ Error cause) cause.

(** ** The even-dimension correction (main.go, [makeEven]) *)

Definition makeEven (n : Z) : Z :=
  if negb (GoInt.rem n 2 =? 0) then GoInt.add n 1 else n.

(** ** The world the program runs in *)

(** The filesystem as far as the program looks at it: for every
    directory path, its listing (the names of its entries), or [None]
    when the directory does not exist. *)
Definition FS : Type := string -> option (list string).

Definition fs_update (fs : FS) (dir : string) (l : option (list string)) : FS :=
  fun p => if String.eqb p dir then l else fs p.

(** [p] is [dir] itself or lies below it. *)
Definition within (dir p : string) : bool :=
  String.eqb p dir || String.prefix (dir ++ "/") p.

Inductive converter : Type := Direct | Extraction.

(** What a run leaves in its log, in the order it happened. *)
Inductive event : Type :=
| EvEnter (c : converter)
    (* the body of convertDirectly / convertViaExtraction starts *)
| EvExec (path : string) (args : list string) (err : option error)
    (* [Cmd.Run] asked for a process of this program with these
       arguments; [err] is what it returned, the failure to start the
       process included *)
| EvGlob (pattern : string) (matches : list string)
    (* the listing [filepath.Glob] returned *)
| EvMkdirTemp (dir : string)
| EvRemoveAll (dir : string)
| EvStdout (text : string)
| EvStderr (text : string).

(** How the start of an external process ends. *)
Inductive ProcOutcome : Type :=
| StartFailed (err : error)
    (* the binary could not be found or started; no process exists *)
| Exited (code : Z) (output : string) (fs' : FS).
    (* the process ran, wrote [output] to its stdout and stderr, left
       the filesystem as [fs'] and exited with [code] *)

(** Everything outside the program.  A run opens each file at most
    once, so what reading a file yields is given per path. *)
Record Env : Type := {
  (* the error of [os.Stat(path)], if any *)
  os_Stat : string -> option error;
  (* [os.IsNotExist(err)] for a non-nil [err] *)
  os_IsNotExist : error -> bool;
  (* the error of [os.Open(path)], if any *)
  os_Open : string -> option error;
  (* [image.DecodeConfig] on the opened file: an error, or the width and
     height its header holds *)
  image_DecodeConfig : string -> error + (Z * Z);
  (* [ioutil.TempDir("", "webp2mp4_*")]: an error, or the name chosen *)
  ioutil_TempDir : FS -> error + string;
  (* starting program [name] with [args] on a filesystem *)
  run_process : string -> list string -> FS -> ProcOutcome
}.

(** ** The monad: filesystem state and an event log *)

Record Out (A : Type) : Type := mkOut { val : A; log : list event; post : FS }.
Arguments mkOut {A} _ _ _.
Arguments val {A} _.
Arguments log {A} _.
Arguments post {A} _.

Definition M (A : Type) : Type := FS -> Out A.

Definition ret {A} (a : A) : M A := fun fs => mkOut a [] fs.

Definition bind {A B} (m : M A) (f : A -> M B) : M B :=
  fun fs =>
    let '(mkOut a l fs1) := m fs in
    let '(mkOut b l' fs2) := f a fs1 in
    mkOut b (l ++ l') fs2.

Definition emit (e : event) : M unit := fun fs => mkOut tt [e] fs.
Definition getFS : M FS := fun fs => mkOut fs [] fs.
Definition putFS (fs' : FS) : M unit := fun _ => mkOut tt [] fs'.

Declare Scope go_scope.
Delimit Scope go_scope with go.
Notation "x <- m ;; k" := (bind m (fun x => k))
  (at level 61, m at next level, right associativity) : go_scope.
Notation "' pat <- m ;; k" := (bind m (fun x => match x with pat => k end))
  (at level 61, pat pattern, m at next level, right associativity) : go_scope.
Notation "m ;; k" := (bind m (fun _ => k))
  (at level 61, right associativity) : go_scope.
Open Scope go_scope.

(** [if cond { body }] for a body run for its effects. *)
Definition when (cond : bool) (body : M unit) : M unit :=
  if cond then body else ret tt.

(** [defer cleanup] at the head of [body]: [cleanup] runs when [body]
    returns, on whichever path, and the value returned is [body]'s. *)
Definition defer {A} (cleanup : M unit) (body : M A) : M A :=
  r <- body ;; cleanup ;; ret r.

(** [fmt.Printf] and [fmt.Println], with the text already formatted. *)
Definition Printf (text : string) : M unit := emit (EvStdout text).

(** ** strings and path/filepath *)

Definition HasSuffix (s suffix : string) : bool :=
  (String.length suffix <=? String.length s)%nat &&
  String.eqb
    (substring (String.length s - String.length suffix) (String.length suffix) s)
    suffix.

Definition TrimSuffix (s suffix : string) : string :=
  if HasSuffix s suffix
  then substring 0 (String.length s - String.length suffix) s
  else s.

(** [strings.Join(elems, sep)] *)
Definition Join_strings (elems : list string) (sep : string) : string :=
  String.concat sep elems.

Definition slash : ascii := "/"%char.
Definition dot : ascii := "."%char.

(** The loop of [filepath.Ext]: walk back from the last byte to the
    first path separator; at the first dot met, the extension is the
    dot and everything walked over.  [rpath] is the part of the path
    still ahead (reversed), [seen] the bytes already walked over. *)
Fixpoint Ext_loop (rpath : list ascii) (seen : list ascii) : list ascii :=
  match rpath with
  | [] => []
  | c :: rest =>
      if Ascii.eqb c slash then []
      else if Ascii.eqb c dot then c :: seen
      else Ext_loop rest (c :: seen)
  end.

Definition Ext (path : string) : string :=
  string_of_list_ascii (Ext_loop (rev (list_ascii_of_string path)) []).

(** [filepath.Split]: the path up to and including its last separator,
    and the file name after it. *)
Fixpoint Split_loop (rpath : list ascii) (seen : list ascii)
  : list ascii * list ascii :=
  match rpath with
  | [] => ([], seen)
  | c :: rest =>
      if Ascii.eqb c slash then (rev rpath, seen)
      else Split_loop rest (c :: seen)
  end.

Definition Split (path : string) : string * string :=
  let '(d, f) := Split_loop (rev (list_ascii_of_string path)) [] in
  (string_of_list_ascii d, string_of_list_ascii f).

(** [filepath.Join] of a directory and a name, for a directory whose
    name is clean already, as [ioutil.TempDir] returns it when the
    temporary directory of the system is given by a clean path.  The
    lexical clean-up [Join] ends with ([filepath.Clean]) is left out: for
    a name that is not clean, Go passes on the cleaned spelling of the
    same path. *)
Definition Join (dir name : string) : string :=
  if String.eqb dir "" then name else dir ++ "/" ++ name.

(** [filepath.Match] for patterns made of literal bytes, [*] and [?];
    neither wildcard matches a separator. *)
Fixpoint Match_loop (pattern name : list ascii) : bool :=
  match pattern with
  | [] => match name with [] => true | _ => false end
  | p :: pattern' =>
      if Ascii.eqb p "*"%char then
        (fix star (name : list ascii) : bool :=
           Match_loop pattern' name ||
           match name with
           | [] => false
           | c :: name' => negb (Ascii.eqb c slash) && star name'
           end) name
      else
        match name with
        | [] => false
        | c :: name' =>
            (if Ascii.eqb p "?"%char then negb (Ascii.eqb c slash)
             else Ascii.eqb p c)
            && Match_loop pattern' name'
        end
  end.

Definition Match (pattern name : string) : bool :=
  Match_loop (list_ascii_of_string pattern) (list_ascii_of_string name).

(** [sort.Strings]: ascending byte order. *)
Fixpoint insert_sorted (s : string) (l : list string) : list string :=
  match l with
  | [] => [s]
  | x :: l' => if String.leb s x then s :: l else x :: insert_sorted s l'
  end.

Definition sort_Strings (l : list string) : list string :=
  fold_right insert_sorted [] l.

(** [cleanGlobPath]: the directory part of a pattern, ready to be opened. *)
Definition cleanGlobPath (dir : string) : string :=
  if String.eqb dir "" then "."
  else if String.eqb dir "/" then "/"
  else substring 0 (String.length dir - 1) dir.

(** [filepath.Glob] for a pattern whose wildcards are all in its last
    element: the matching names of the directory, sorted, each joined to
    the directory.  The pattern the program builds is of this kind when
    the name of the scratch directory holds no wildcard byte (star,
    question mark, opening bracket, backslash); in a directory name that
    holds one, Go expands it as well.  A directory that cannot be read
    yields no match and no error, as in Go; the malformed-pattern error
    cannot arise for this pattern syntax. *)
Definition Glob_matches (pattern : string) (fs : FS) : list string :=
  let '(dir, file) := Split pattern in
  let dir := cleanGlobPath dir in
  let names := match fs dir with Some names => names | None => [] end in
  map (Join dir) (filter (Match file) (sort_Strings names)).

Definition Glob (pattern : string) : M (list string * option error) :=
  fs <- getFS ;;
  let matches := Glob_matches pattern fs in
  emit (EvGlob pattern matches) ;;
  ret (matches, None).

(** ** os/exec *)

Inductive Writer : Type := os_Stdout | os_Stderr | buffer.

(** [exec.Cmd].  [Process] is set once the process has been started;
    [captured] is the content of the [bytes.Buffer] that
    [CombinedOutput] attaches to both output streams. *)
Record Cmd : Type := mkCmd {
  Path : string;
  Args : list string;
  Stdout : option Writer;
  Stderr : option Writer;
  Process : bool;
  captured : string
}.

Definition exec_Command (name : string) (args : list string) : Cmd :=
  mkCmd name args None None false "".

Definition set_Stdout (c : Cmd) (w : Writer) : Cmd :=
  mkCmd (Path c) (Args c) (Some w) (Stderr c) (Process c) (captured c).

Definition set_Stderr (c : Cmd) (w : Writer) : Cmd :=
  mkCmd (Path c) (Args c) (Stdout c) (Some w) (Process c) (captured c).

Definition started (c : Cmd) (output : string) : Cmd :=
  mkCmd (Path c) (Args c) (Stdout c) (Stderr c) true
    (match Stdout c with
     | Some buffer => captured c ++ output
     | _ => captured c
     end).

Definition ExitError (code : Z) : error :=
  errorString ("exit status " ++ GoInt.itoa code).

Definition exit_status (code : Z) : option error :=
  if code =? 0 then None else Some (ExitError code).

Section Program.

Variable env : Env.

(** [Cmd.Run]: start the process and wait for it.  A [Cmd] that has
    been started once cannot be run again: [Start] refuses it with
    "exec: already started" before anything is executed.  The output
    of a process given the program's own stdout and stderr appears on
    the console. *)
Definition Run (c : Cmd) : M (option error * Cmd) :=
  if Process c then ret (Some (errorString "exec: already started"), c)
  else
    fs <- getFS ;;
    match run_process env (Path c) (Args c) fs with
    | StartFailed err =>
        emit (EvExec (Path c) (Args c) (Some err)) ;;
        ret (Some err, c)
    | Exited code output fs' =>
        putFS fs' ;;
        emit (EvExec (Path c) (Args c) (exit_status code)) ;;
        when (match Stdout c with Some os_Stdout => true | _ => false end)
             (emit (EvStdout output)) ;;
        ret (exit_status code, started c output)
    end.

(** [Cmd.CombinedOutput]: run the command with one buffer on both
    streams and return what it collected. *)
Definition CombinedOutput (c : Cmd) : M (string * option error * Cmd) :=
  match Stdout c, Stderr c with
  | Some _, _ => ret ("", Some (errorString "exec: Stdout already set"), c)
  | None, Some _ => ret ("", Some (errorString "exec: Stderr already set"), c)
  | None, None =>
      let c := set_Stderr (set_Stdout c buffer) buffer in
      '(err, c) <- Run c ;;
      ret (captured c, err, c)
  end.

(** [ioutil.TempDir("", pattern)]: a new, empty directory. *)
Definition TempDir : M (string * option error) :=
  fs <- getFS ;;
  match ioutil_TempDir env fs with
  | inl err => ret ("", Some err)
  | inr dir =>
      putFS (fs_update fs dir (Some [])) ;;
      emit (EvMkdirTemp dir) ;;
      ret (dir, None)
  end.

(** [os.RemoveAll(path)]: [path] and everything below it is gone.  The
    error it may return is not looked at by the program, which defers the
    call, and is left out. *)
Definition RemoveAll (path : string) : M unit :=
  fs <- getFS ;;
  putFS (fun p => if within path p then None else fs p) ;;
  emit (EvRemoveAll path).

(** ** main.go *)

Definition getWebPDimensions (filename : string) : Z * Z * option error :=
  match os_Open env filename with
  | Some err => (0, 0, Some err)
  | None =>
      match image_DecodeConfig env filename with
      | inl err => (0, 0, Some err)
      | inr (Width, Height) => (Width, Height, None)
      end
  end.

Definition getPNGDimensions (filename : string) : Z * Z * option error :=
  match os_Open env filename with
  | Some err => (0, 0, Some err)
  | None =>
      match image_DecodeConfig env filename with
      | inl err => (0, 0, Some err)
      | inr (Width, Height) => (Width, Height, None)
      end
  end.

(** The options both converters end their encode command with
    (lines 162-167 and 225-230). *)
Definition outputOptions (output : string) : list string :=
  ["-preset"; "medium"; "-movflags"; "+faststart"; "-y"; output].

(** [fmt.Sprintf("scale=%d:%d:flags=lanczos", w, h)] *)
Definition lanczosFilter (w h : Z) : string :=
  "scale=" ++ GoInt.itoa w ++ ":" ++ GoInt.itoa h ++ ":flags=lanczos".

Definition truncFilter : string := "scale='trunc(iw/2)*2:trunc(ih/2)*2'".

Definition adjustedText (w h : Z) : string :=
  "Adjusted dimensions: " ++ GoInt.itoa w ++ "x" ++ GoInt.itoa h
    ++ " (made even for h264 compatibility)" ++ nl.

(** Lines 194-201. *)
Definition directInputArgs (input : string) (fps : Z) (bitrate : string)
  : list string :=
  ["-f"; "webp_pipe"; "-i"; input; "-c:v"; "libx264";
   "-pix_fmt"; "yuv420p"; "-r"; GoInt.itoa fps; "-b:v"; bitrate].

Definition convertDirectly (input output : string) (fps : Z)
    (bitrate : string) (verbose : bool) : M (option error) :=
  emit (EvEnter Direct) ;;
  let '(width, height, err) := getWebPDimensions input in
  let '(width, height) :=
    match err with Some _ => (0, 0) | None => (width, height) end in
  let args := directInputArgs input fps bitrate in
  args <-
    (if (0 <? width) && (0 <? height) then
       let adjustedWidth := makeEven width in
       let adjustedHeight := makeEven height in
       let adjust :=
         negb (adjustedWidth =? width) || negb (adjustedHeight =? height) in
       when verbose
         (Printf ("Original dimensions: " ++ GoInt.itoa width ++ "x"
                    ++ GoInt.itoa height ++ nl) ;;
          when adjust (Printf (adjustedText adjustedWidth adjustedHeight))) ;;
       ret (if adjust
            then (args ++ ["-vf"; lanczosFilter adjustedWidth adjustedHeight])%list
            else args)
     else
       ret (args ++ ["-vf"; truncFilter])%list) ;;
  let args := (args ++ outputOptions output)%list in
  let cmd := exec_Command "ffmpeg" args in
  '(returned, cmd) <-
    (if verbose then
       let cmd := set_Stderr (set_Stdout cmd os_Stdout) os_Stderr in
       Printf ("Running command: ffmpeg " ++ Join_strings args " " ++ nl) ;;
       ret (None, cmd)
     else
       '(cmdOutput, err, cmd) <- CombinedOutput cmd ;;
       match err with
       | Some err =>
           ret (Some (wrapError ("ffmpeg failed: " ++ Error err ++ nl
                                   ++ "Output: " ++ cmdOutput) err), cmd)
       | None => ret (None, cmd)
       end) ;;
  match returned with
  | Some err => ret (Some err)
  | None =>
      '(err, _) <- Run cmd ;;
      match err with
      | Some err =>
          if negb verbose
          then ret (Some (Errorf_w "ffmpeg failed: " err))
          else ret None
      | None => ret None
      end
  end.

(** Lines 94-98. *)
Definition extractArgs (input framePattern : string) : list string :=
  ["-i"; input; "-vsync"; "0"; framePattern].

(** Lines 147-153. *)
Definition framesInputArgs (tempDir : string) (fps : Z) (bitrate : string)
  : list string :=
  ["-framerate"; GoInt.itoa fps; "-i"; Join tempDir "frame_%03d.png";
   "-c:v"; "libx264"; "-pix_fmt"; "yuv420p"; "-b:v"; bitrate].

Definition errNoFrames : error := errorString "no frames extracted from WebP".

Definition convertViaExtraction (input output : string) (fps : Z)
    (bitrate : string) (verbose : bool) : M (option error) :=
  emit (EvEnter Extraction) ;;
  '(tempDir, err) <- TempDir ;;
  match err with
  | Some err => ret (Some (Errorf_w "failed to create temp directory: " err))
  | None =>
  defer (RemoveAll tempDir) (
    when verbose (Printf ("Extracting frames to: " ++ tempDir ++ nl)) ;;
    let framePattern := Join tempDir "frame_%03d.png" in
    let extractCmd :=
      exec_Command "webpmux" ["-get"; "frame"; "0"; input; "-o"; "-"] in
    let extractArgs := extractArgs input framePattern in
    let extractCmd := exec_Command "ffmpeg" extractArgs in
    extractCmd <-
      (if verbose then
         Printf ("Extracting frames: ffmpeg "
                   ++ Join_strings extractArgs " " ++ nl) ;;
         ret (set_Stderr (set_Stdout extractCmd os_Stdout) os_Stderr)
       else ret extractCmd) ;;
    '(err, _) <- Run extractCmd ;;
    returned <-
      match err with
      | Some _ =>
          when verbose
            (Printf ("FFmpeg extraction failed, trying ImageMagick..." ++ nl)) ;;
          let convertCmd :=
            exec_Command "convert" [input; "-coalesce"; framePattern] in
          '(err, _) <- Run convertCmd ;;
          match err with
          | Some err => ret (Some (Errorf_w "failed to extract frames: " err))
          | None => ret None
          end
      | None => ret None
      end ;;
    match returned with
    | Some err => ret (Some err)
    | None =>
    '(frames, err) <- Glob (Join tempDir "frame_*.png") ;;
    match err, frames with
    | Some _, _ | _, [] => ret (Some errNoFrames)
    | None, firstFrame :: _ =>
    when verbose
      (Printf ("Extracted " ++ GoInt.itoa (Z.of_nat (List.length frames))
                 ++ " frames" ++ nl)) ;;
    let '(width, height, err) := getPNGDimensions firstFrame in
    match err with
    | Some err => ret (Some (Errorf_w "failed to get frame dimensions: " err))
    | None =>
    let adjustedWidth := makeEven width in
    let adjustedHeight := makeEven height in
    let adjust :=
      negb (adjustedWidth =? width) || negb (adjustedHeight =? height) in
    when verbose
      (Printf ("Frame dimensions: " ++ GoInt.itoa width ++ "x"
                 ++ GoInt.itoa height ++ nl) ;;
       when adjust (Printf (adjustedText adjustedWidth adjustedHeight))) ;;
    let args := framesInputArgs tempDir fps bitrate in
    let args :=
      if adjust
      then (args ++ ["-vf"; lanczosFilter adjustedWidth adjustedHeight])%list
      else args in
    let args := (args ++ outputOptions output)%list in
    let cmd := exec_Command "ffmpeg" args in
    cmd <-
      (if verbose then
         Printf ("Creating video: ffmpeg " ++ Join_strings args " " ++ nl) ;;
         ret (set_Stderr (set_Stdout cmd os_Stdout) os_Stderr)
       else ret cmd) ;;
    '(err, _) <- Run cmd ;;
    match err with
    | Some err => ret (Some (Errorf_w "ffmpeg failed to create video: " err))
    | None => ret None
    end
    end
    end
    end)
  end.

Definition convertWebPToMP4 (input output : string) (fps : Z)
    (bitrate : string) (verbose : bool) (method : string)
  : M (option error) :=
  if match os_Stat env input with
     | Some err => os_IsNotExist env err
     | None => false
     end
  then ret (Some (errorString ("input file does not exist: " ++ input)))
  else if String.eqb method "auto" then
    err <- convertDirectly input output fps bitrate verbose ;;
    match err with
    | Some err =>
        when verbose
          (Printf ("Direct conversion failed, trying frame extraction method: "
                     ++ Error err ++ nl)) ;;
        convertViaExtraction input output fps bitrate verbose
    | None => ret None
    end
  else if String.eqb method "extract" then
    convertViaExtraction input output fps bitrate verbose
  else
    convertDirectly input output fps bitrate verbose.

(** Lines 42-45 of [main]: the output path when [-o] is absent. *)
Definition defaultOutput (input output : string) : string :=
  if String.eqb output "" then
    let ext := Ext input in
    TrimSuffix input ext ++ ".mp4"
  else output.

End Program.

(** ** main.go: the command line, [checkDependencies], [init] and [main] *)

(** The flags as [flag.Parse] leaves them (lines 19-34). *)
Record Flags : Type := mkFlags {
  flag_i : string;
  flag_o : string;
  flag_fps : Z;
  flag_b : string;
  flag_v : bool;
  flag_method : string
}.

(** The values the flag definitions give to flags absent from the
    command line (lines 28-33). *)
Definition default_flags : Flags := mkFlags "" "" 30 "2M" false "auto".

(** What the process finds when it starts, beside its flags. *)
Record Startup : Type := {
  (* [os.Args[0]] *)
  os_Args0 : string;
  (* the text [flag.PrintDefaults()] writes to standard error *)
  flag_PrintDefaults : string;
  (* the date and time the standard logger puts before a message *)
  log_prefix : string;
  (* the error of [exec.LookPath(file)], if any *)
  exec_LookPath : string -> option error
}.

(** The standard logger ends a message with a newline unless it has
    one. *)
Definition log_line (message : string) : string :=
  if HasSuffix message nl then message else message ++ nl.

(** [log.Fatal(err)]: the message on standard error, then [os.Exit(1)];
    the value is the exit status. *)
Definition log_Fatal (st : Startup) (err : error) : M Z :=
  emit (EvStderr (log_prefix st ++ log_line (Error err))) ;;
  ret 1.

Definition checkDependencies (st : Startup) : M (option error) :=
  match exec_LookPath st "ffmpeg" with
  | Some _ => ret (Some (errorString "ffmpeg is not installed or not in PATH"))
  | None =>
      match exec_LookPath st "convert" with
      | Some _ =>
          emit (EvStderr
                  ("Warning: ImageMagick (convert) not found. Some animated WebP files might not convert properly."
                     ++ nl)) ;;
          ret None
      | None => ret None
      end
  end.

(** [init]: [Some status] when it ends the process with [os.Exit]. *)
Definition init (st : Startup) : M (option Z) :=
  err <- checkDependencies st ;;
  match err with
  | Some err =>
      emit (EvStderr ("Error: " ++ Error err ++ nl)) ;;
      emit (EvStderr ("Please install ffmpeg first." ++ nl)) ;;
      ret (Some 1)
  | None => ret None
  end.

(** [main] after [flag.Parse]; the value is the exit status of the
    process, 0 when [main] returns. *)
Definition main (env : Env) (st : Startup) (flags : Flags) : M Z :=
  let input := flag_i flags in
  let output := flag_o flags in
  let fps := flag_fps flags in
  let bitrate := flag_b flags in
  let verbose := flag_v flags in
  let method := flag_method flags in
  if String.eqb input "" then
    emit (EvStderr
            ("Usage: " ++ os_Args0 st
               ++ " -i input.webp [-o output.mp4] [-fps 30] [-b 2M] [-v]" ++ nl)) ;;
    emit (EvStderr (flag_PrintDefaults st)) ;;
    ret 1
  else
    let output := defaultOutput input output in
    err <- convertWebPToMP4 env input output fps bitrate verbose method ;;
    match err with
    | Some err => log_Fatal st err
    | None =>
        Printf ("Successfully converted " ++ input ++ " to " ++ output ++ nl) ;;
        ret 0
    end.

(** The process: package initialisation runs [init] before [main]. *)
Definition run (env : Env) (st : Startup) (flags : Flags) : M Z :=
  exited <- init st ;;
  match exited with
  | Some status => ret status
  | None => main env st flags
  end.

Arguments GoInt.itoa : simpl never.
Arguments makeEven : simpl never.
Arguments Join_strings : simpl never.
Arguments Glob_matches : simpl never.
Arguments exit_status : simpl never.
Arguments Join : simpl never.
Arguments within : simpl never.

(** * Vocabulary of the properties *)

(** ** Reading a log *)

(** The commands a run issued with [Cmd.Run], in order: program and
    arguments.  A command whose process could not be started is listed
    like one whose process ran. *)
Definition execs (l : list event) : list (string * list string) :=
  flat_map (fun e => match e with EvExec p a _ => [(p, a)] | _ => [] end) l.

(** How many times a run entered converter [c]. *)
Definition entered (c : converter) (l : list event) : nat :=
  List.length
    (filter (fun e =>
               match e, c with
               | EvEnter Direct, Direct | EvEnter Extraction, Extraction => true
               | _, _ => false
               end) l).

(** The two commands of the extract phase: the transcoder writing the
    frames, and the image tool as its fallback. *)
Definition extraction_commands (input tempDir : string)
  : list (string * list string) :=
  [("ffmpeg", extractArgs input (Join tempDir "frame_%03d.png"));
   ("convert", [input; "-coalesce"; Join tempDir "frame_%03d.png"])].

(** The guard [convertWebPToMP4] starts with: [os.Stat] on the input
    reports that it does not exist. *)
Definition missing (env : Env) (input : string) : bool :=
  match os_Stat env input with
  | Some err => os_IsNotExist env err
  | None => false
  end.

(** ** The scratch directory *)

(** The entries of a directory; none when it does not exist. *)
Definition listing (fs : FS) (dir : string) : list string :=
  match fs dir with Some names => names | None => [] end.

(** The frame files of a directory: its entries named [frame_*.png]. *)
Definition frame_files (fs : FS) (dir : string) : list string :=
  filter (Match "frame_*.png") (listing fs dir).

(** Byte order on names, as [sort.Strings] uses it. *)
Definition leq (a b : string) : Prop := String.leb a b = true.

(** Both tools expand the pattern [frame_%03d.png] as [printf] does: the
    frame number in decimal, padded with zeros to three digits. *)
Definition pad3 (digits : string) : string :=
  match String.length digits with
  | 1%nat => "00" ++ digits
  | 2%nat => "0" ++ digits
  | _ => digits
  end.

Definition frameName (n : nat) : string :=
  "frame_" ++ pad3 (NilZero.string_of_uint (Nat.to_uint n)) ++ ".png".

Definition below_1000 : list nat := seq 0 1000.

(** ** Scenarios

    Concrete environments for the examples below.  The scratch
    directory is always [/tmp/webp2mp4_1]; every process exits with
    [code], prints [output] and leaves [frames] in the scratch directory
    (or leaves the filesystem alone when [frames] is empty). *)
Module Scenario.

Definition scratch : string := "/tmp/webp2mp4_1".

Definition no_dirs : FS := fun _ => None.

Definition enoent : error := errorString "no such file or directory".

Definition world (stat open : option error) (header : error + (Z * Z))
    (code : Z) (output : string) (frames : list string) : Env :=
  {| os_Stat := fun _ => stat;
     os_IsNotExist := fun _ => true;
     os_Open := fun _ => open;
     image_DecodeConfig := fun _ => header;
     ioutil_TempDir := fun _ => inr scratch;
     run_process := fun _ _ fs =>
       Exited code output
         (match frames with
          | [] => fs
          | _ => fs_update fs scratch (Some frames)
          end) |}.

(** Both tools work; the animation is 640x480 and has two frames. *)
Definition healthy : Env :=
  world None None (inr (640, 480)) 0 "" ["frame_002.png"; "frame_001.png"].

(** Both tools exit with status 1 and write nothing to disk. *)
Definition failing_tools : Env :=
  world None None (inr (640, 480)) 1 "Invalid data found" [].

(** Both tools exit with status 0 but write nothing to disk. *)
Definition silent_tools : Env :=
  world None None (inr (640, 480)) 0 "" [].

(** The input file does not exist. *)
Definition input_missing : Env :=
  world (Some enoent) (Some enoent) (inl enoent) 1 "No such file" [].

(** No image header can be decoded. *)
Definition unreadable_headers : Env :=
  world None None (inl (errorString "image: unknown format")) 0 ""
    ["frame_002.png"; "frame_001.png"].

End Scenario.

(** ** The statements of the specification that the code does not meet *)

(** C1, as the specification states it: in mode [auto] the selector
    starts with Direct Converter; where Direct Converter succeeds,
    Extraction Converter is not entered and the selector succeeds; where
    it fails, Extraction Converter is entered exactly once and its result,
    on the state Direct Converter left, is the selector's. *)
Definition auto_mode_as_specified : Prop :=
  forall env input output fps bitrate verbose fs,
    let direct := convertDirectly env input output fps bitrate verbose fs in
    let out := convertWebPToMP4 env input output fps bitrate verbose "auto" fs in
    (exists rest, log out = EvEnter Direct :: rest) /\
    match val direct with
    | None => entered Extraction (log out) = 0%nat /\ val out = None
    | Some _ =>
        entered Extraction (log out) = 1%nat /\
        val out = val (convertViaExtraction env input output fps bitrate
                         verbose (post direct))
    end.

(** C6, as the specification states it: whenever the scratch directory
    holds no frame file after the extract phase, the run ends with the
    no-frames-extracted error and without a reassembly.  The condition is
    put on the environment: [TempDir] creates the scratch directory empty,
    and no process adds a frame file to it. *)
Definition no_frames_as_specified : Prop :=
  forall env input output fps bitrate verbose fs tempDir,
    ioutil_TempDir env fs = inr tempDir ->
    (forall prog args fs0 code text fs',
        run_process env prog args fs0 = Exited code text fs' ->
        frame_files fs0 tempDir = [] -> frame_files fs' tempDir = []) ->
    let out := convertViaExtraction env input output fps bitrate verbose fs in
    val out = Some errNoFrames /\
    incl (execs (log out)) (extraction_commands input tempDir).

(** C4, as the specification states it: whenever the probe returns
    dimensions that are both even, neither converter puts a scaling
    filter on its encode command: the input arguments are followed at
    once by the output options. *)
Definition even_dimensions_as_specified : Prop :=
  forall env input output fps bitrate verbose fs,
    (forall width height,
        getWebPDimensions env input = (width, height, None) ->
        Z.even width = true -> Z.even height = true ->
        execs (log (convertDirectly env input output fps bitrate verbose fs))
        = [("ffmpeg",
            (directInputArgs input fps bitrate ++ outputOptions output)%list)])
    /\
    (forall tempDir pattern firstFrame rest width height,
        ioutil_TempDir env fs = inr tempDir ->
        In (EvGlob pattern (firstFrame :: rest))
           (log (convertViaExtraction env input output fps bitrate verbose
                   fs)) ->
        getPNGDimensions env firstFrame = (width, height, None) ->
        Z.even width = true -> Z.even height = true ->
        exists extraction,
          execs (log (convertViaExtraction env input output fps bitrate
                        verbose fs))
          = (extraction
               ++ [("ffmpeg",
                    (framesInputArgs tempDir fps bitrate
                       ++ outputOptions output)%list)])%list /\
          incl extraction (extraction_commands input tempDir)).

(** C10, as the specification states it: for a method that is neither
    [auto] nor [extract], the selector is Direct Converter. *)
Definition other_methods_as_specified : Prop :=
  forall env input output fps bitrate verbose method fs,
    method <> "auto" -> method <> "extract" ->
    convertWebPToMP4 env input output fps bitrate verbose method fs
    = convertDirectly env input output fps bitrate verbose fs.

(** ** Vocabulary of the further properties *)

(** What a run wrote to the console. *)
Definition printed (l : list event) : list event :=
  filter (fun e =>
            match e with
            | EvStdout _ | EvStderr _ => true
            | _ => false
            end) l.

(** What a run did, the console lines left out. *)
Definition actions (l : list event) : list event :=
  filter (fun e =>
            match e with
            | EvStdout _ | EvStderr _ => false
            | _ => true
            end) l.

(** The scratch directories a run created or removed, and the listings
    it took. *)
Definition scratch_events (l : list event) : list event :=
  filter (fun e =>
            match e with
            | EvMkdirTemp _ | EvRemoveAll _ | EvGlob _ _ => true
            | _ => false
            end) l.

(** The reassembly command of Extraction Converter with a given filter
    part. *)
Definition reassembly_command (tempDir : string) (fps : Z)
    (bitrate output : string) (filter : list string)
  : string * list string :=
  ("ffmpeg",
   (framesInputArgs tempDir fps bitrate ++ filter ++ outputOptions output)%list).

(** The bytes of a name that is neither split by [filepath.Ext] nor by
    a separator. *)
Definition plain (name : string) : Prop :=
  Forall (fun c => Ascii.eqb c slash = false /\ Ascii.eqb c dot = false)
         (list_ascii_of_string name).

(** The flags of a command line that holds [-i] and nothing else. *)
Definition only_input (input : string) : Flags :=
  mkFlags input (flag_o default_flags) (flag_fps default_flags)
    (flag_b default_flags) (flag_v default_flags) (flag_method default_flags).

(** More scenarios: a 641x480 animation, one whose header holds a zero
    width, and a machine with or without the tools. *)
Definition odd_animation : Env :=
  Scenario.world None None (inr (641, 480)) 0 ""
    ["frame_002.png"; "frame_001.png"].

Definition zero_width_animation : Env :=
  Scenario.world None None (inr (0, 480)) 0 "" [].

Definition startup (ffmpeg convert : option error) : Startup :=
  {| os_Args0 := "webp2mp4";
     flag_PrintDefaults := "  -i string" ++ nl;
     log_prefix := "2026/11/02 12:00:00 ";
     exec_LookPath := fun file =>
       if String.eqb file "ffmpeg" then ffmpeg
       else if String.eqb file "convert" then convert
       else Some Scenario.enoent |}.

Definition flags_for (input : string) (verbose : bool) (method : string)
  : Flags :=
  mkFlags input "" 30 "2M" verbose method.

(** ** Running the program symbolically *)

(** The innermost scrutinee a head-normal term is stuck on: a call into
    the environment, a flag, a comparison of dimensions. *)
Ltac stuck_at t :=
  match t with
  | match ?s with _ => _ end => stuck_at s
  | ?f ?x => stuck_head f
  | _ => t
  end
with stuck_head f :=
  match f with
  | match ?s with _ => _ end => stuck_at s
  | ?g ?x => stuck_head g
  end.

(** Head normal form of a run of one of the converters. *)
Ltac whnf_converter t :=
  eval lazy head beta iota zeta delta
    [convertViaExtraction convertDirectly
     bind ret emit getFS putFS when defer Printf Run CombinedOutput TempDir
     RemoveAll Glob started set_Stdout set_Stderr exec_Command
     Process Stdout Stderr Path Args captured negb andb orb] in t.

(** Head normal form of a run of the selector, the converters it calls
    left folded. *)
Ltac whnf_selector t :=
  eval lazy head beta iota zeta delta
    [convertWebPToMP4 bind ret emit when Printf] in t.

(** [E : out = run]: follow the run to each of its ends.  Where it is
    stuck, use the hypothesis that tells what the scrutinee is, or else
    split on it. *)
Ltac split_on E s :=
  first
    [ match goal with H : s = _ |- _ => rewrite H in E end
    | lazymatch type of s with
      | bool =>
          let v := eval cbv beta iota delta
                     [Z.ltb Z.eqb Z.compare Pos.compare Pos.compare_cont
                      Pos.eqb String.eqb Ascii.eqb Bool.eqb negb andb orb]
                   in s in
          lazymatch v with
          | true => change s with true in E
          | false => change s with false in E
          end
      end
    | lazymatch type of s with
      | Out _ =>
          let v := fresh "v" in
          let l := fresh "l" in
          let st := fresh "st" in
          let H := fresh "Hrun" in
          destruct s as [v l st] eqn:H; try rewrite H in E
      end
    | let H := fresh "Hcase" in destruct s eqn:H; try rewrite H in E ].

Ltac tidy_cmd E :=
  cbn [Path Args Stdout Stderr Process captured
       set_Stdout set_Stderr exec_Command started] in E.

Ltac exec_converter E :=
  repeat
    (match type of E with
     | ?o = ?t =>
         lazymatch t with
         | mkOut _ _ _ => fail
         | _ =>
             let t' := whnf_converter t in
             change (o = t') in E;
             tidy_cmd E;
             lazymatch t' with
             | mkOut _ _ _ => idtac
             | _ =>
                 match type of E with
                 | _ = ?t'' => let s := stuck_at t'' in split_on E s
                 end
             end
         end
     end).

Ltac exec_selector E :=
  repeat
    (match type of E with
     | ?o = ?t =>
         lazymatch t with
         | mkOut _ _ _ => fail
         | _ =>
             let t' := whnf_selector t in
             change (o = t') in E;
             lazymatch t' with
             | mkOut _ _ _ => idtac
             | _ => let s := stuck_at t' in split_on E s
             end
         end
     end).

(** The same, for a second run of a converter in the same environment:
    what is known of the dimensions from the first run is used
    wherever it occurs, so that both runs meet the same processes. *)
Ltac exec_converter_again E :=
  repeat
    (match type of E with
     | ?o = ?t =>
         lazymatch t with
         | mkOut _ _ _ => fail
         | _ =>
             let t' := whnf_converter t in
             change (o = t') in E;
             tidy_cmd E;
             repeat match goal with
               | H : (makeEven ?a =? ?a) = _ |- _ => rewrite H in E
               end;
             lazymatch t' with
             | mkOut _ _ _ => idtac
             | _ =>
                 match type of E with
                 | _ = ?t'' => let s := stuck_at t'' in split_on E s
                 end
             end
         end
     end).

(** Head normal form of a run of the process, the selector left
    folded. *)
Ltac whnf_main t :=
  eval lazy head beta iota zeta delta
    [run init checkDependencies main log_Fatal bind ret emit when Printf]
  in t.

Ltac exec_main E :=
  repeat
    (match type of E with
     | ?o = ?t =>
         lazymatch t with
         | mkOut _ _ _ => fail
         | _ =>
             let t' := whnf_main t in
             change (o = t') in E;
             lazymatch t' with
             | mkOut _ _ _ => idtac
             | _ => let s := stuck_at t' in split_on E s
             end
         end
     end).

(** Reading what a membership in a log says. *)
Ltac in_log :=
  cbn [In] in *;
  repeat match goal with
    | H : _ \/ _ |- _ => destruct H
    | H : False |- _ => contradiction
    | H : @eq event _ _ |- _ => first [discriminate H | injection H as; subst]
    end.

(** * Properties *)

(** ** Logs *)

Lemma execs_app l1 l2 : execs (l1 ++ l2)%list = (execs l1 ++ execs l2)%list.
Proof. unfold execs. now rewrite flat_map_app. Qed.

Lemma entered_app c l1 l2 :
  entered c (l1 ++ l2)%list = (entered c l1 + entered c l2)%nat.
Proof. unfold entered. now rewrite filter_app, length_app. Qed.

(** ** The even-dimension correction *)

Section MakeEven.

Lemma rem2_even n : (GoInt.rem n 2 =? 0) = Z.even n.
Proof.
  unfold GoInt.rem.
  destruct (Z.eqb_spec (Z.rem n 2) 0) as [E | E].
  - apply Z.rem_mod_eq_0 in E; [| lia].
    symmetry. apply Z.even_spec. exists (n / 2).
    pose proof (Z.div_mod n 2). lia.
  - destruct (Z.even n) eqn:Ev; [| reflexivity].
    exfalso. apply E. apply Z.rem_mod_eq_0; [lia |].
    apply Z.even_spec in Ev. destruct Ev as [k ->].
    rewrite Z.mul_comm. apply Z.mod_mul. lia.
Qed.

Lemma wrap_in_range n : GoInt.in_range n -> GoInt.wrap n = n.
Proof.
  unfold GoInt.in_range, GoInt.wrap, GoInt.min_int, GoInt.max_int, GoInt.bits.
  intros H. rewrite Z.mod_small; lia.
Qed.

(** Below the largest [int], [makeEven] leaves an even value alone and
    adds one to an odd value. *)
Lemma makeEven_spec n :
  GoInt.min_int <= n < GoInt.max_int ->
  makeEven n = if Z.even n then n else n + 1.
Proof.
  intros H. unfold makeEven, GoInt.add. rewrite rem2_even.
  destruct (Z.even n); simpl; [reflexivity |].
  apply wrap_in_range. unfold GoInt.in_range. lia.
Qed.

(** An even value is left alone whatever its size. *)
Lemma makeEven_even n : Z.even n = true -> makeEven n = n.
Proof. intros H. unfold makeEven. now rewrite rem2_even, H. Qed.

Lemma makeEven_is_even n :
  GoInt.min_int <= n < GoInt.max_int -> Z.even (makeEven n) = true.
Proof.
  intros H. rewrite (makeEven_spec n H).
  destruct (Z.even n) eqn:E; [exact E |].
  rewrite Z.even_add, E. reflexivity.
Qed.

(** At the largest [int] the addition wraps around. *)
Example makeEven_max_int : makeEven GoInt.max_int = GoInt.min_int.
Proof. reflexivity. Qed.

End MakeEven.

(** C3.  For every pair of dimensions (width, height) of which at least
    one is odd, both corrected dimensions are even, and each corrected
    dimension is the original one when that was even and the original
    plus one when it was odd; it is never the original minus one or the
    original plus two.  Dimensions are values of Go's [int] below the
    largest one, where [n + 1] does not wrap. *)
Theorem makeEven_corrects_odd_dimensions (width height : Z) :
  GoInt.min_int <= width < GoInt.max_int ->
  GoInt.min_int <= height < GoInt.max_int ->
  Z.odd width = true \/ Z.odd height = true ->
  Z.even (makeEven width) = true /\
  Z.even (makeEven height) = true /\
  makeEven width = (if Z.odd width then width + 1 else width) /\
  makeEven height = (if Z.odd height then height + 1 else height) /\
  makeEven width <> width - 1 /\ makeEven width <> width + 2 /\
  makeEven height <> height - 1 /\ makeEven height <> height + 2.
Proof.
  intros Hw Hh _.
  pose proof (makeEven_spec width Hw) as Ew.
  pose proof (makeEven_spec height Hh) as Eh.
  rewrite <- Z.negb_odd in Ew, Eh.
  repeat split.
  - now apply makeEven_is_even.
  - now apply makeEven_is_even.
  - rewrite Ew. now destruct (Z.odd width).
  - rewrite Eh. now destruct (Z.odd height).
  - rewrite Ew. destruct (Z.odd width); simpl; lia.
  - rewrite Ew. destruct (Z.odd width); simpl; lia.
  - rewrite Eh. destruct (Z.odd height); simpl; lia.
  - rewrite Eh. destruct (Z.odd height); simpl; lia.
Qed.

Lemma makeEven_corrects_odd_dimensions_witness :
  Z.even (makeEven 3) = true /\
  Z.even (makeEven 4) = true /\
  makeEven 3 = (if Z.odd 3 then 3 + 1 else 3) /\
  makeEven 4 = (if Z.odd 4 then 4 + 1 else 4) /\
  makeEven 3 <> 3 - 1 /\ makeEven 3 <> 3 + 2 /\
  makeEven 4 <> 4 - 1 /\ makeEven 4 <> 4 + 2.
Proof.
  apply (makeEven_corrects_odd_dimensions 3 4).
  - vm_compute. split; [discriminate | reflexivity].
  - vm_compute. split; [discriminate | reflexivity].
  - left. reflexivity.
Defined.

(** ** The default output path *)

Section DefaultOutput.

Lemma string_of_list_ascii_app l1 l2 :
  string_of_list_ascii (l1 ++ l2)%list
  = string_of_list_ascii l1 ++ string_of_list_ascii l2.
Proof. induction l1 as [| c l1 IH]; simpl; [reflexivity | now rewrite IH]. Qed.

Lemma length_append (a b : string) :
  String.length (a ++ b) = (String.length a + String.length b)%nat.
Proof. induction a as [| c a IH]; simpl; [reflexivity | now rewrite IH]. Qed.

Lemma substring_all (b : string) : substring 0 (String.length b) b = b.
Proof. induction b as [| c b IH]; simpl; [reflexivity | now rewrite IH]. Qed.

Lemma substring_drop (a b : string) :
  substring (String.length a) (String.length b) (a ++ b) = b.
Proof. induction a as [| c a IH]; simpl; [apply substring_all | exact IH]. Qed.

Lemma substring_take (a b : string) :
  substring 0 (String.length a) (a ++ b) = a.
Proof.
  induction a as [| c a IH]; simpl.
  - now destruct b.
  - now rewrite IH.
Qed.

Lemma HasSuffix_append (a b : string) : HasSuffix (a ++ b) b = true.
Proof.
  unfold HasSuffix. rewrite length_append.
  replace (String.length a + String.length b - String.length b)%nat
    with (String.length a) by lia.
  rewrite substring_drop, String.eqb_refl, andb_true_r.
  apply Nat.leb_le. lia.
Qed.

Lemma TrimSuffix_append (a b : string) : TrimSuffix (a ++ b) b = a.
Proof.
  unfold TrimSuffix. rewrite HasSuffix_append, length_append.
  replace (String.length a + String.length b - String.length b)%nat
    with (String.length a) by lia.
  apply substring_take.
Qed.

(** The loop of [Ext] returns a suffix of what it was given. *)
Lemma Ext_loop_suffix rpath seen :
  exists stem, (rev rpath ++ seen)%list = (stem ++ Ext_loop rpath seen)%list.
Proof.
  revert seen. induction rpath as [| c rest IH]; intros seen; simpl.
  - exists seen. now rewrite app_nil_r.
  - destruct (Ascii.eqb c slash).
    + exists ((rev rest ++ [c]) ++ seen)%list. now rewrite app_nil_r.
    + destruct (Ascii.eqb c dot).
      * exists (rev rest). now rewrite <- app_assoc.
      * destruct (IH (c :: seen)) as [stem E].
        exists stem. now rewrite <- app_assoc.
Qed.

Lemma Ext_suffix (path : string) : exists stem, path = stem ++ Ext path.
Proof.
  unfold Ext.
  destruct (Ext_loop_suffix (rev (list_ascii_of_string path)) []) as [stem E].
  rewrite rev_involutive, app_nil_r in E.
  exists (string_of_list_ascii stem).
  rewrite <- string_of_list_ascii_app, <- E.
  now rewrite string_of_list_ascii_of_string.
Qed.

(** What the loop returns is empty, or a dot followed by bytes that
    are neither a dot nor a separator: the last dot of the last
    element of the path and what follows it. *)
Lemma Ext_loop_shape rpath seen :
  Forall (fun c => Ascii.eqb c slash = false /\ Ascii.eqb c dot = false) seen ->
  Ext_loop rpath seen = [] \/
  exists tail,
    Ext_loop rpath seen = dot :: tail /\
    Forall (fun c => Ascii.eqb c slash = false /\ Ascii.eqb c dot = false) tail.
Proof.
  revert seen. induction rpath as [| c rest IH]; intros seen Hseen; simpl.
  - now left.
  - destruct (Ascii.eqb c slash) eqn:Es; [now left |].
    destruct (Ascii.eqb c dot) eqn:Ed.
    + right. exists seen. apply Ascii.eqb_eq in Ed. now subst.
    + apply IH. now constructor.
Qed.

(** How the loop of [Ext] ends: at the last dot of the last element,
    at the start of a path without separator and without dot, or at the
    last separator, no dot having been met. *)
Lemma Ext_loop_cases rpath seen :
  (exists l rest,
      Forall (fun c => Ascii.eqb c slash = false /\ Ascii.eqb c dot = false) l /\
      rpath = (l ++ dot :: rest)%list /\
      Ext_loop rpath seen = (dot :: rev l ++ seen)%list) \/
  (Forall (fun c => Ascii.eqb c slash = false /\ Ascii.eqb c dot = false) rpath /\
   Ext_loop rpath seen = []) \/
  (exists l rest,
      Forall (fun c => Ascii.eqb c slash = false /\ Ascii.eqb c dot = false) l /\
      rpath = (l ++ slash :: rest)%list /\
      Ext_loop rpath seen = []).
Proof.
  revert seen. induction rpath as [| c rest IH]; intros seen; simpl.
  - right. left. split; [constructor | reflexivity].
  - destruct (Ascii.eqb c slash) eqn:Es.
    + right. right. exists [], rest. apply Ascii.eqb_eq in Es. subst c.
      repeat split. constructor.
    + destruct (Ascii.eqb c dot) eqn:Ed.
      * left. exists [], rest. apply Ascii.eqb_eq in Ed. subst c.
        repeat split. constructor.
      * destruct (IH (c :: seen))
          as [(l & r & Hl & -> & E) | [(Hl & E) | (l & r & Hl & -> & E)]].
        -- left. exists (c :: l), r. repeat split.
           ++ constructor; [now split | exact Hl].
           ++ rewrite E. simpl. now rewrite <- app_assoc.
        -- right. left. split; [| exact E].
           constructor; [now split | exact Hl].
        -- right. right. exists (c :: l), r. repeat split.
           ++ constructor; [now split | exact Hl].
           ++ exact E.
Qed.

(** A path read back to front, cut at one of its bytes. *)
Lemma string_cut (path : string) l (c : ascii) rest :
  rev (list_ascii_of_string path) = (l ++ c :: rest)%list ->
  path = string_of_list_ascii (rev rest)
         ++ String c (string_of_list_ascii (rev l)).
Proof.
  intros H.
  rewrite <- (string_of_list_ascii_of_string path).
  rewrite <- (rev_involutive (list_ascii_of_string path)), H.
  rewrite rev_app_distr. simpl rev. rewrite <- app_assoc. simpl app.
  now rewrite string_of_list_ascii_app.
Qed.

Lemma plain_of_rev l :
  Forall (fun c => Ascii.eqb c slash = false /\ Ascii.eqb c dot = false) l ->
  plain (string_of_list_ascii (rev l)).
Proof.
  intros H. unfold plain. rewrite list_ascii_of_string_of_list_ascii.
  now apply Forall_rev.
Qed.

Lemma append_empty (s : string) : s ++ "" = s.
Proof. induction s as [| c s IH]; simpl; [reflexivity | now rewrite IH]. Qed.

End DefaultOutput.

(** C9.  When no [-o] flag is given (the flag's value is the empty
    string), the output path is the input path with its extension
    replaced by [.mp4].  The extension is the last dot of the last path
    element and what follows it:
    - an input [base.e], where [e] holds neither a dot nor a separator,
      yields [base.mp4];
    - an input without an extension, that is, one whose last path
      element holds no dot, yields the input followed by [.mp4];
    and every input is of one of these forms.  In particular [clip.webp]
    yields [clip.mp4].  In terms of [filepath.Ext]: the input is a stem
    followed by its extension, which is empty or a dot followed by bytes
    that are neither a dot nor a separator, and the output is that stem
    followed by [.mp4]. *)
Theorem defaultOutput_replaces_extension :
  defaultOutput "clip.webp" "" = "clip.mp4" /\
  (forall input : string,
      (exists base e,
          input = base ++ "." ++ e /\ plain e /\
          defaultOutput input "" = base ++ ".mp4") \/
      (plain input /\ defaultOutput input "" = input ++ ".mp4") \/
      (exists dir name,
          input = dir ++ "/" ++ name /\ plain name /\
          defaultOutput input "" = input ++ ".mp4")) /\
  (forall input : string,
      exists stem,
        input = stem ++ Ext input /\
        defaultOutput input "" = stem ++ ".mp4" /\
        (Ext input = "" \/
         exists tail,
           Ext input = String dot tail /\
           Forall (fun c => Ascii.eqb c slash = false /\ Ascii.eqb c dot = false)
                  (list_ascii_of_string tail))).
Proof.
  split; [reflexivity |]. split.
  - intros input. unfold defaultOutput, Ext. simpl String.eqb. cbv iota.
    destruct (Ext_loop_cases (rev (list_ascii_of_string input)) [])
      as [(l & r & Hl & Hcut & E) | [(Hl & E) | (l & r & Hl & Hcut & E)]];
      rewrite E.
    + left. apply string_cut in Hcut.
      exists (string_of_list_ascii (rev r)), (string_of_list_ascii (rev l)).
      split; [exact Hcut |]. split; [now apply plain_of_rev |].
      rewrite app_nil_r. simpl string_of_list_ascii.
      rewrite Hcut at 1. now rewrite TrimSuffix_append.
    + right. left. split.
      * unfold plain. rewrite <- (rev_involutive (list_ascii_of_string input)).
        now apply Forall_rev.
      * simpl string_of_list_ascii.
        rewrite <- (append_empty input) at 1. now rewrite TrimSuffix_append.
    + right. right. apply string_cut in Hcut.
      exists (string_of_list_ascii (rev r)), (string_of_list_ascii (rev l)).
      split; [exact Hcut |]. split; [now apply plain_of_rev |].
      simpl string_of_list_ascii.
      rewrite <- (append_empty input) at 1. now rewrite TrimSuffix_append.
  - intros input. destruct (Ext_suffix input) as [stem E].
    exists stem. split; [exact E |]. split.
    + unfold defaultOutput. simpl.
      rewrite E at 1. now rewrite TrimSuffix_append.
    + unfold Ext.
      destruct (Ext_loop_shape (rev (list_ascii_of_string input)) [])
        as [-> | [tail [-> H]]]; [constructor | now left |].
      right. exists (string_of_list_ascii tail). split; [reflexivity |].
      now rewrite list_ascii_of_string_of_list_ascii.
Qed.

(** ** The frame listing

    What [filepath.Glob] returns for the pattern of Extraction Converter,
    in terms of the scratch directory: its entries named [frame_*.png],
    in ascending byte order. *)

Section FrameListing.

Lemma leq_trans a b c : leq a b -> leq b c -> leq a c.
Proof.
  unfold leq, String.leb. intros Hab Hbc.
  destruct (String.compare a b) eqn:Eab; [| | discriminate].
  - apply String.compare_eq_iff in Eab. now subst.
  - destruct (String.compare b c) eqn:Ebc; [| | discriminate].
    + apply String.compare_eq_iff in Ebc. subst. now rewrite Eab.
    + apply String_as_OT.cmp_lt in Eab, Ebc.
      pose proof (String_as_OT.lt_trans _ _ _ Eab Ebc) as Hac.
      apply String_as_OT.cmp_lt in Hac.
      change (String_as_OT.cmp a c) with (String.compare a c) in Hac.
      now rewrite Hac.
Qed.

Lemma In_insert_sorted x s l : In x (insert_sorted s l) <-> x = s \/ In x l.
Proof.
  induction l as [| y l IH]; simpl.
  - intuition.
  - destruct (String.leb s y); simpl; [intuition |].
    rewrite IH. intuition.
Qed.

Lemma In_sort_Strings x l : In x (sort_Strings l) <-> In x l.
Proof.
  induction l as [| y l IH]; simpl; [tauto |].
  rewrite In_insert_sorted, IH. intuition.
Qed.

Lemma insert_sorted_sorted s l :
  StronglySorted leq l -> StronglySorted leq (insert_sorted s l).
Proof.
  induction 1 as [| y l Hl IH Hy]; simpl.
  - repeat constructor.
  - destruct (String.leb s y) eqn:E.
    + constructor; [now constructor |].
      constructor; [exact E |].
      apply Forall_forall. intros z Hz.
      apply leq_trans with y; [exact E |].
      rewrite Forall_forall in Hy. now apply Hy.
    + constructor; [exact IH |].
      apply Forall_forall. intros z Hz.
      apply In_insert_sorted in Hz. destruct Hz as [-> | Hz].
      * destruct (String.leb_total s y) as [H | H]; [congruence | exact H].
      * rewrite Forall_forall in Hy. now apply Hy.
Qed.

Lemma sort_Strings_sorted l : StronglySorted leq (sort_Strings l).
Proof.
  induction l as [| y l IH]; simpl; [constructor |].
  now apply insert_sorted_sorted.
Qed.

Lemma filter_sorted (f : string -> bool) l :
  StronglySorted leq l -> StronglySorted leq (filter f l).
Proof.
  induction 1 as [| y l Hl IH Hy]; simpl; [constructor |].
  destruct (f y); [| exact IH].
  constructor; [exact IH |].
  apply Forall_forall. intros z Hz. apply filter_In in Hz.
  rewrite Forall_forall in Hy. now apply Hy.
Qed.

Lemma filter_none (f : string -> bool) l :
  (forall x, In x l -> f x = false) -> filter f l = [].
Proof.
  induction l as [| y l IH]; simpl; intros H; [reflexivity |].
  rewrite (H y (or_introl eq_refl)). apply IH. intros x Hx. apply H. now right.
Qed.

Lemma list_ascii_of_string_app a b :
  list_ascii_of_string (a ++ b)
  = (list_ascii_of_string a ++ list_ascii_of_string b)%list.
Proof. induction a as [| c a IH]; simpl; [reflexivity | now rewrite IH]. Qed.

Lemma substring_but_last (a : string) (c : ascii) :
  substring 0 (String.length (a ++ String c "") - 1) (a ++ String c "") = a.
Proof.
  rewrite length_append. simpl.
  replace (String.length a + 1 - 1)%nat with (String.length a) by lia.
  apply substring_take.
Qed.

(** The pattern splits into the scratch directory and the file pattern. *)
Lemma Split_frame_pattern tempDir :
  Split (tempDir ++ "/" ++ "frame_*.png") = (tempDir ++ "/", "frame_*.png").
Proof.
  unfold Split.
  rewrite list_ascii_of_string_app, rev_app_distr. simpl.
  rewrite rev_involutive, string_of_list_ascii_app.
  now rewrite string_of_list_ascii_of_string.
Qed.

Lemma Glob_matches_frames tempDir fs :
  tempDir <> "" ->
  Glob_matches (Join tempDir "frame_*.png") fs
  = map (Join tempDir)
        (filter (Match "frame_*.png") (sort_Strings (listing fs tempDir))).
Proof.
  intros Hne. unfold Glob_matches, Join at 1.
  apply String.eqb_neq in Hne. rewrite Hne.
  rewrite Split_frame_pattern.
  assert (Hclean : cleanGlobPath (tempDir ++ "/") = tempDir).
  { unfold cleanGlobPath.
    destruct tempDir as [| c t]; [discriminate |].
    simpl String.eqb at 1.
    replace (String.eqb (String c t ++ "/") "/") with false.
    - apply substring_but_last.
    - simpl. destruct (Ascii.eqb c "/"); [| reflexivity].
      now destruct t. }
  rewrite Hclean. reflexivity.
Qed.

(** No frame is listed exactly when the scratch directory holds no
    frame file. *)
Lemma Glob_matches_none tempDir fs :
  tempDir <> "" ->
  Glob_matches (Join tempDir "frame_*.png") fs = [] <->
  frame_files fs tempDir = [].
Proof.
  intros Hne. rewrite (Glob_matches_frames tempDir fs Hne).
  unfold frame_files. split; intros H.
  - apply map_eq_nil in H. apply filter_none. intros x Hx.
    destruct (Match "frame_*.png" x) eqn:E; [| reflexivity].
    assert (Hf : In x (filter (Match "frame_*.png")
                         (sort_Strings (listing fs tempDir))))
      by (apply filter_In; split; [now apply In_sort_Strings | exact E]).
    rewrite H in Hf. contradiction.
  - rewrite filter_none; [reflexivity |].
    intros x Hx. apply (proj1 (In_sort_Strings x _)) in Hx.
    destruct (Match "frame_*.png" x) eqn:E; [| reflexivity].
    assert (Hf : In x (filter (Match "frame_*.png") (listing fs tempDir)))
      by (apply filter_In; split; assumption).
    rewrite H in Hf. contradiction.
Qed.

(** The first frame listed is the frame file of the scratch directory
    whose name is least in byte order. *)
Lemma Glob_matches_first tempDir fs firstFrame rest :
  tempDir <> "" ->
  Glob_matches (Join tempDir "frame_*.png") fs = firstFrame :: rest ->
  exists name,
    firstFrame = Join tempDir name /\
    In name (listing fs tempDir) /\
    Match "frame_*.png" name = true /\
    forall other,
      In other (listing fs tempDir) -> Match "frame_*.png" other = true ->
      leq name other.
Proof.
  intros Hne. rewrite (Glob_matches_frames tempDir fs Hne).
  pose proof (filter_sorted (Match "frame_*.png") _
                (sort_Strings_sorted (listing fs tempDir))) as Hsorted.
  assert (Hin : forall x,
             In x (filter (Match "frame_*.png")
                     (sort_Strings (listing fs tempDir))) <->
             In x (listing fs tempDir) /\ Match "frame_*.png" x = true).
  { intros x. rewrite filter_In, In_sort_Strings. tauto. }
  destruct (filter (Match "frame_*.png") (sort_Strings (listing fs tempDir)))
    as [| name names]; [discriminate |].
  simpl. intros H. injection H as <- _.
  exists name. split; [reflexivity |].
  destruct (proj1 (Hin name) (or_introl eq_refl)) as [Hl Hm].
  repeat split; try assumption.
  intros other Ho Hmo.
  destruct (proj2 (Hin other) (conj Ho Hmo)) as [<- | Hrest].
  - unfold leq. destruct (String.leb_total name name); assumption.
  - inversion Hsorted as [| ? ? _ Hall]; subst.
    rewrite Forall_forall in Hall. now apply Hall.
Qed.

End FrameListing.

(** ** Frame numbers *)

Section FrameNumbers.

Lemma In_below_1000 n : (n < 1000)%nat -> In n below_1000.
Proof. intros H. apply in_seq. lia. Qed.

Lemma compare_lt_trans a b c :
  String.compare a b = Lt -> String.compare b c = Lt ->
  String.compare a c = Lt.
Proof.
  intros Hab Hbc. apply String_as_OT.cmp_lt in Hab, Hbc.
  apply String_as_OT.cmp_lt. now apply String_as_OT.lt_trans with b.
Qed.

(** Each frame name is below the next one (checked on all numbers). *)
Lemma frameName_succ n :
  (n < 999)%nat -> String.compare (frameName n) (frameName (S n)) = Lt.
Proof.
  intros Hn.
  assert (H : forallb
                (fun a =>
                   match String.compare (frameName a) (frameName (S a)) with
                   | Lt => true
                   | _ => false
                   end)
                (seq 0 999) = true) by (vm_compute; reflexivity).
  rewrite forallb_forall in H.
  assert (Hin : In n (seq 0 999)) by (apply in_seq; lia).
  specialize (H n Hin).
  now destruct (String.compare (frameName n) (frameName (S n))).
Qed.

Lemma frameName_lt n m :
  (n < m)%nat -> (m < 1000)%nat ->
  String.compare (frameName n) (frameName m) = Lt.
Proof.
  induction 1 as [| m Hle IH]; intros Hm.
  - apply frameName_succ. lia.
  - apply compare_lt_trans with (frameName m).
    + apply IH. lia.
    + apply frameName_succ. lia.
Qed.

(** Up to 999 the byte order of frame names is the order of frame
    numbers. *)
Lemma frameName_order n m :
  (n < 1000)%nat -> (m < 1000)%nat ->
  String.leb (frameName n) (frameName m) = (n <=? m)%nat.
Proof.
  intros Hn Hm. unfold String.leb.
  destruct (Nat.lt_trichotomy n m) as [H | [H | H]].
  - rewrite (frameName_lt n m H Hm). symmetry. apply Nat.leb_le. lia.
  - subst m.
    destruct (String.compare (frameName n) (frameName n)) eqn:E.
    + symmetry. apply Nat.leb_le. lia.
    + symmetry. apply Nat.leb_le. lia.
    + pose proof (String.compare_antisym (frameName n) (frameName n)) as A.
      rewrite E in A. discriminate A.
  - rewrite String.compare_antisym, (frameName_lt m n H Hn). simpl.
    symmetry. apply Nat.leb_gt. exact H.
Qed.

Lemma frameName_matches n :
  (n < 1000)%nat -> Match "frame_*.png" (frameName n) = true.
Proof.
  intros Hn.
  assert (H : forallb (fun a => Match "frame_*.png" (frameName a)) below_1000
              = true) by (vm_compute; reflexivity).
  rewrite forallb_forall in H. apply H. now apply In_below_1000.
Qed.

(** With fewer than a thousand frames in the scratch directory, the
    first frame listed is the one with the lowest number. *)
Lemma first_frame_lowest_number tempDir fs numbers firstFrame rest :
  tempDir <> "" ->
  listing fs tempDir = map frameName numbers ->
  Forall (fun n => (n < 1000)%nat) numbers ->
  Glob_matches (Join tempDir "frame_*.png") fs = firstFrame :: rest ->
  exists k,
    firstFrame = Join tempDir (frameName k) /\
    In k numbers /\
    forall n, In n numbers -> (k <= n)%nat.
Proof.
  intros Hne Hlist Hsmall Hglob.
  rewrite Forall_forall in Hsmall.
  destruct (Glob_matches_first tempDir fs firstFrame rest Hne Hglob)
    as (name & -> & Hin & _ & Hleast).
  rewrite Hlist in Hin, Hleast.
  apply in_map_iff in Hin. destruct Hin as (k & <- & Hk).
  exists k. repeat split; try assumption.
  intros n Hn.
  specialize (Hleast (frameName n) (in_map frameName _ _ Hn)
                (frameName_matches n (Hsmall n Hn))).
  unfold leq in Hleast.
  rewrite (frameName_order k n (Hsmall k Hk) (Hsmall n Hn)) in Hleast.
  now apply Nat.leb_le.
Qed.

End FrameNumbers.

(** ** Direct Converter *)

(** Whether Direct Converter reports success depends on the verbosity
    flag alone: with [-v] the error of the only [Run] is dropped; without
    it, a command that [CombinedOutput] ran to a zero exit is run again,
    which [Run] refuses. *)
Lemma convertDirectly_result env input output fps bitrate verbose fs :
  val (convertDirectly env input output fps bitrate verbose fs) = None
  <-> verbose = true.
Proof.
  remember (convertDirectly env input output fps bitrate verbose fs)
    as out eqn:E.
  destruct verbose; exec_converter E.
  all: subst out; cbn [val]; split; intros; try reflexivity; discriminate.
Qed.

(** Without [-v], a process that exits non-zero makes Direct Converter
    fail with an error that wraps the exit error and ends with the
    output the process wrote. *)
Lemma convertDirectly_quiet_failure env input output fps bitrate fs :
  forall args err,
    In (EvExec "ffmpeg" args (Some err))
       (log (convertDirectly env input output fps bitrate false fs)) ->
    exists cmdOutput,
      val (convertDirectly env input output fps bitrate false fs)
      = Some (wrapError ("ffmpeg failed: " ++ Error err ++ nl
                           ++ "Output: " ++ cmdOutput) err).
Proof.
  intros args err.
  remember (convertDirectly env input output fps bitrate false fs)
    as out eqn:E.
  exec_converter E.
  all: subst out; cbn [val log app In]; intros H.
  all: in_log; try congruence.
  all: eexists; reflexivity.
Qed.

(** Direct Converter enters once, starts with that, never enters
    Extraction Converter, and starts exactly one process. *)
Lemma convertDirectly_log env input output fps bitrate verbose fs :
  let out := convertDirectly env input output fps bitrate verbose fs in
  (exists rest, log out = EvEnter Direct :: rest) /\
  entered Direct (log out) = 1%nat /\
  entered Extraction (log out) = 0%nat /\
  exists args, execs (log out) = [("ffmpeg", args)].
Proof.
  intros out. subst out.
  remember (convertDirectly env input output fps bitrate verbose fs)
    as out eqn:E.
  destruct verbose; exec_converter E.
  all: subst out; cbn [log app].
  all: repeat split; try reflexivity; eexists; reflexivity.
Qed.

(** C2.  Direct Converter does not follow the exit status of the
    transcoder.  With [-v], a transcoder that exits with status 1 yields
    success; without [-v], a transcoder that exits with status 0 yields
    the error "ffmpeg failed: exec: already started".  (Without [-v] and
    with a non-zero exit the error does carry the captured output.) *)
Theorem convertDirectly_disregards_exit_status :
  val (convertDirectly Scenario.failing_tools "clip.webp" "clip.mp4" 30 "2M"
         true Scenario.no_dirs) = None /\
  val (convertDirectly Scenario.silent_tools "clip.webp" "clip.mp4" 30 "2M"
         false Scenario.no_dirs)
  = Some (wrapError "ffmpeg failed: exec: already started"
            (errorString "exec: already started")) /\
  execs (log (convertDirectly Scenario.silent_tools "clip.webp" "clip.mp4" 30
                "2M" false Scenario.no_dirs))
  = [("ffmpeg",
      ["-f"; "webp_pipe"; "-i"; "clip.webp"; "-c:v"; "libx264";
       "-pix_fmt"; "yuv420p"; "-r"; "30"; "-b:v"; "2M";
       "-preset"; "medium"; "-movflags"; "+faststart"; "-y"; "clip.mp4"])] /\
  val (convertDirectly Scenario.failing_tools "clip.webp" "clip.mp4" 30 "2M"
         false Scenario.no_dirs)
  = Some (wrapError
            ("ffmpeg failed: exit status 1" ++ nl
               ++ "Output: Invalid data found")
            (errorString "exit status 1")).
Proof. repeat split; vm_compute; reflexivity. Qed.

(** C8.  When the dimension probe of the input fails, Direct Converter
    goes on: it starts the transcoder, once, and the argument list of
    that invocation holds the filter that truncates width and height to
    even values in place of a scale to exact dimensions. *)
Theorem convertDirectly_probe_failure_truncates
    env input output fps bitrate verbose fs width height err :
  getWebPDimensions env input = (width, height, Some err) ->
  execs (log (convertDirectly env input output fps bitrate verbose fs))
  = [("ffmpeg",
      (directInputArgs input fps bitrate
         ++ ["-vf"; "scale='trunc(iw/2)*2:trunc(ih/2)*2'"]
         ++ outputOptions output)%list)].
Proof.
  intros Hprobe.
  remember (convertDirectly env input output fps bitrate verbose fs)
    as out eqn:E.
  destruct verbose; exec_converter E.
  all: subst out; cbn [log app execs flat_map].
  all: now rewrite <- app_assoc.
Qed.

Lemma convertDirectly_probe_failure_truncates_witness :
  execs (log (convertDirectly Scenario.unreadable_headers "clip.webp"
                "clip.mp4" 30 "2M" false Scenario.no_dirs))
  = [("ffmpeg",
      ["-f"; "webp_pipe"; "-i"; "clip.webp"; "-c:v"; "libx264";
       "-pix_fmt"; "yuv420p"; "-r"; "30"; "-b:v"; "2M";
       "-vf"; "scale='trunc(iw/2)*2:trunc(ih/2)*2'";
       "-preset"; "medium"; "-movflags"; "+faststart"; "-y"; "clip.mp4"])].
Proof.
  apply (convertDirectly_probe_failure_truncates
           Scenario.unreadable_headers "clip.webp" "clip.mp4" 30 "2M" false
           Scenario.no_dirs 0 0 (errorString "image: unknown format")).
  reflexivity.
Defined.

(** ** Extraction Converter *)

(** The reassembly command is none of the extraction commands: its
    arguments start with [-framerate]. *)
Lemma reassembly_is_no_extraction input tempDir fps bitrate rest :
  ~ In ("ffmpeg", (framesInputArgs tempDir fps bitrate ++ rest)%list)
       (extraction_commands input tempDir).
Proof.
  unfold extraction_commands, framesInputArgs, extractArgs.
  cbn [In app]. intros [H | [H | []]]; discriminate H.
Qed.

(** Extraction Converter enters once and never enters Direct Converter. *)
Lemma convertViaExtraction_log env input output fps bitrate verbose fs :
  let out := convertViaExtraction env input output fps bitrate verbose fs in
  (exists rest, log out = EvEnter Extraction :: rest) /\
  entered Extraction (log out) = 1%nat /\
  entered Direct (log out) = 0%nat.
Proof.
  intros out. subst out.
  remember (convertViaExtraction env input output fps bitrate verbose fs)
    as out eqn:E.
  destruct verbose; exec_converter E.
  all: subst out; cbn [log app].
  all: repeat split; try reflexivity; eexists; reflexivity.
Qed.

(** C5.  Whichever way a run of Extraction Converter ends, once the
    scratch directory has been created the last thing the run does is
    remove it, and when the function returns neither the directory nor
    anything below it exists.  (When the directory cannot be created
    there is nothing to remove: the run ends at once, the filesystem
    untouched.) *)
Theorem convertViaExtraction_removes_scratch
    env input output fps bitrate verbose fs :
  let out := convertViaExtraction env input output fps bitrate verbose fs in
  match ioutil_TempDir env fs with
  | inr tempDir =>
      (forall p, within tempDir p = true -> post out p = None) /\
      (exists body,
         log out = EvEnter Extraction :: EvMkdirTemp tempDir :: body) /\
      last (log out) (EvEnter Extraction) = EvRemoveAll tempDir
  | inl err =>
      val out = Some (Errorf_w "failed to create temp directory: " err) /\
      log out = [EvEnter Extraction] /\
      post out = fs
  end.
Proof.
  intros out. subst out.
  remember (convertViaExtraction env input output fps bitrate verbose fs)
    as out eqn:E.
  destruct verbose; exec_converter E.
  all: subst out; cbn [val log post app last].
  all: try (repeat split; reflexivity).
  all: repeat split; try reflexivity; try (eexists; reflexivity).
  all: intros path Hpath; now rewrite Hpath.
Qed.

(** C6 as specified fails when both extraction tools fail: the error is
    then the fallback's, wrapped as a failure to extract frames, and the
    frame listing is never taken. *)
Lemma no_frames_counterexample : ~ no_frames_as_specified.
Proof.
  intros spec.
  destruct (spec Scenario.failing_tools "clip.webp" "clip.mp4" 30 "2M" false
              Scenario.no_dirs Scenario.scratch eq_refl) as [Hval _].
  - intros prog args fs0 code text fs' Hrun Hnone.
    injection Hrun as _ _ <-. exact Hnone.
  - vm_compute in Hval. discriminate Hval.
Qed.

(** The run of the counterexample, spelled out. *)
Example both_extractions_fail :
  let out := convertViaExtraction Scenario.failing_tools "clip.webp"
               "clip.mp4" 30 "2M" false Scenario.no_dirs in
  val out = Some (wrapError "failed to extract frames: exit status 1"
                    (errorString "exit status 1")) /\
  log out =
    [EvEnter Extraction;
     EvMkdirTemp "/tmp/webp2mp4_1";
     EvExec "ffmpeg"
       ["-i"; "clip.webp"; "-vsync"; "0"; "/tmp/webp2mp4_1/frame_%03d.png"]
       (Some (errorString "exit status 1"));
     EvExec "convert"
       ["clip.webp"; "-coalesce"; "/tmp/webp2mp4_1/frame_%03d.png"]
       (Some (errorString "exit status 1"));
     EvRemoveAll "/tmp/webp2mp4_1"].
Proof. split; vm_compute; reflexivity. Qed.

(** How the extract phase of a run that created its scratch directory
    ends: a failed fallback ends the run with its error wrapped, an empty
    frame listing ends it with the no-frames-extracted error, no process
    other than the extraction commands is started on either path, and one
    of the two events, fallback failure or frame listing, occurs. *)
Lemma extract_phase_outcomes
    env input output fps bitrate verbose fs tempDir :
  ioutil_TempDir env fs = inr tempDir ->
  let out := convertViaExtraction env input output fps bitrate verbose fs in
  (forall args err,
      In (EvExec "convert" args (Some err)) (log out) ->
      val out = Some (Errorf_w "failed to extract frames: " err) /\
      incl (execs (log out)) (extraction_commands input tempDir)) /\
  (forall pattern,
      In (EvGlob pattern []) (log out) ->
      val out = Some errNoFrames /\
      incl (execs (log out)) (extraction_commands input tempDir)) /\
  ((exists args err, In (EvExec "convert" args (Some err)) (log out)) \/
   (exists matches,
       In (EvGlob (Join tempDir "frame_*.png") matches) (log out))).
Proof.
  intros Htmp out. subst out.
  remember (convertViaExtraction env input output fps bitrate verbose fs)
    as out eqn:E.
  destruct verbose; exec_converter E.
  all: subst out; cbn [val log app execs flat_map].
  all: unfold extraction_commands, incl.
  all: repeat split; intros; in_log; cbn [In] in *.
  all: try (repeat split; try reflexivity; intros; in_log; cbn [In]; tauto).
  all: try (left; do 2 eexists; cbn [In]; tauto).
  all: try (right; eexists; cbn [In]; tauto).
Qed.

Lemma frame_files_fresh fs tempDir :
  frame_files (fs_update fs tempDir (Some [])) tempDir = [].
Proof.
  unfold frame_files, listing, fs_update. now rewrite String.eqb_refl.
Qed.

(** Where no process adds a frame file to the scratch directory, which
    [TempDir] creates empty, every frame listing a run takes is empty. *)
Lemma listing_empty_without_frames
    env input output fps bitrate verbose fs tempDir :
  ioutil_TempDir env fs = inr tempDir ->
  tempDir <> "" ->
  (forall prog args fs0 code text fs',
      run_process env prog args fs0 = Exited code text fs' ->
      frame_files fs0 tempDir = [] -> frame_files fs' tempDir = []) ->
  forall pattern matches,
    In (EvGlob pattern matches)
       (log (convertViaExtraction env input output fps bitrate verbose fs)) ->
    matches = [].
Proof.
  intros Htmp Hne Hkeep pattern matches.
  pose proof (frame_files_fresh fs tempDir) as Hfresh.
  remember (convertViaExtraction env input output fps bitrate verbose fs)
    as out eqn:E.
  destruct verbose; exec_converter E.
  all: subst out; cbn [log app]; intros Hin; in_log; try reflexivity.
  all: repeat match goal with
         | Hrun : run_process _ _ _ ?f0 = Exited _ _ ?f1,
           F : frame_files ?f0 _ = [] |- _ =>
             pose proof (Hkeep _ _ _ _ _ _ Hrun F); clear Hrun
         end.
  all: match goal with
       | Hg : Glob_matches _ ?f = _ :: _, F : frame_files ?f ?d = [] |- _ =>
           apply (Glob_matches_none d f Hne) in F; congruence
       end.
Qed.

(** C6, amended.  In a run of Extraction Converter that created its
    scratch directory:
    - if the fallback extraction was attempted and failed, the run ends
      with the failed-to-extract-frames error wrapping the fallback's
      error, whatever the scratch directory holds;
    - otherwise the frame files of the scratch directory are listed, and
      if the listing is empty the run ends with the no-frames-extracted
      error;
    - in both cases the only processes started are those of the extract
      phase: no reassembly is performed;
    - and the listing is empty whenever the scratch directory holds no
      frame file, that is, whenever no process adds one to it. *)
Theorem convertViaExtraction_without_frames
    env input output fps bitrate verbose fs tempDir :
  ioutil_TempDir env fs = inr tempDir ->
  let out := convertViaExtraction env input output fps bitrate verbose fs in
  (forall args err,
      In (EvExec "convert" args (Some err)) (log out) ->
      val out = Some (Errorf_w "failed to extract frames: " err) /\
      incl (execs (log out)) (extraction_commands input tempDir)) /\
  (forall pattern,
      In (EvGlob pattern []) (log out) ->
      val out = Some errNoFrames /\
      incl (execs (log out)) (extraction_commands input tempDir)) /\
  ((exists args err, In (EvExec "convert" args (Some err)) (log out)) \/
   (exists matches,
       In (EvGlob (Join tempDir "frame_*.png") matches) (log out))) /\
  (tempDir <> "" ->
   (forall prog args fs0 code text fs',
       run_process env prog args fs0 = Exited code text fs' ->
       frame_files fs0 tempDir = [] -> frame_files fs' tempDir = []) ->
   forall pattern matches,
     In (EvGlob pattern matches) (log out) -> matches = []).
Proof.
  intros Htmp out. subst out.
  destruct (extract_phase_outcomes env input output fps bitrate verbose fs
              tempDir Htmp) as (Hfallback & Hlisting & Hcases).
  split; [exact Hfallback |].
  split; [exact Hlisting |].
  split; [exact Hcases |].
  intros Hne Hkeep pattern matches.
  now apply listing_empty_without_frames with tempDir.
Qed.

Lemma convertViaExtraction_without_frames_witness :
  let out := convertViaExtraction Scenario.silent_tools "clip.webp"
               "clip.mp4" 30 "2M" false Scenario.no_dirs in
  val out = Some errNoFrames /\
  incl (execs (log out))
       (extraction_commands "clip.webp" "/tmp/webp2mp4_1").
Proof.
  apply (proj1 (proj2 (convertViaExtraction_without_frames
                         Scenario.silent_tools "clip.webp" "clip.mp4" 30 "2M"
                         false Scenario.no_dirs "/tmp/webp2mp4_1" eq_refl))
           "/tmp/webp2mp4_1/frame_*.png").
  vm_compute. tauto.
Defined.

(** C7.  In Extraction Converter, the frame whose dimensions are read
    is the first of the sorted listing of the frame files of the scratch
    directory (with fewer than a thousand frames, the one with the lowest
    number: [first_frame_lowest_number]).  If reading them fails, the run
    ends with an error that wraps the cause of the failure, and the only
    processes started are those of the extract phase: no reassembly is
    performed. *)
Theorem convertViaExtraction_frame_probe_failure
    env input output fps bitrate verbose fs tempDir
    pattern firstFrame rest width height cause :
  ioutil_TempDir env fs = inr tempDir ->
  In (EvGlob pattern (firstFrame :: rest))
     (log (convertViaExtraction env input output fps bitrate verbose fs)) ->
  getPNGDimensions env firstFrame = (width, height, Some cause) ->
  let out := convertViaExtraction env input output fps bitrate verbose fs in
  pattern = Join tempDir "frame_*.png" /\
  val out = Some (Errorf_w "failed to get frame dimensions: " cause) /\
  (exists err, val out = Some err /\ Unwrap err = Some cause) /\
  incl (execs (log out)) (extraction_commands input tempDir).
Proof.
  intros Htmp Hin Hpng out. subst out. revert Hin.
  remember (convertViaExtraction env input output fps bitrate verbose fs)
    as out eqn:E.
  destruct verbose; exec_converter E.
  all: subst out; cbn [val log app execs flat_map]; intros Hin; in_log.
  all: try congruence.
  all: match goal with
       | H1 : getPNGDimensions _ ?f = _, H2 : getPNGDimensions _ ?f = _ |- _ =>
           rewrite H1 in H2; injection H2 as; subst
       end.
  all: unfold extraction_commands, incl.
  all: repeat split; try reflexivity; try (eexists; split; reflexivity).
  all: intros; in_log; cbn [In]; tauto.
Qed.

Lemma convertViaExtraction_frame_probe_failure_witness :
  let out := convertViaExtraction Scenario.unreadable_headers "clip.webp"
               "clip.mp4" 30 "2M" false Scenario.no_dirs in
  "/tmp/webp2mp4_1/frame_*.png" = Join "/tmp/webp2mp4_1" "frame_*.png" /\
  val out = Some (Errorf_w "failed to get frame dimensions: "
                    (errorString "image: unknown format")) /\
  (exists err,
      val out = Some err /\
      Unwrap err = Some (errorString "image: unknown format")) /\
  incl (execs (log out)) (extraction_commands "clip.webp" "/tmp/webp2mp4_1").
Proof.
  apply (convertViaExtraction_frame_probe_failure
           Scenario.unreadable_headers "clip.webp" "clip.mp4" 30 "2M" false
           Scenario.no_dirs "/tmp/webp2mp4_1"
           "/tmp/webp2mp4_1/frame_*.png"
           "/tmp/webp2mp4_1/frame_001.png" ["/tmp/webp2mp4_1/frame_002.png"]
           0 0 (errorString "image: unknown format")).
  - reflexivity.
  - vm_compute. tauto.
  - reflexivity.
Defined.

(** C4 as specified fails for a header that decodes without error to a
    width of zero: both dimensions are even, yet Direct Converter takes
    the dimensions for unknown and puts the truncating filter on its
    command. *)
Lemma even_dimensions_counterexample : ~ even_dimensions_as_specified.
Proof.
  intros spec.
  destruct (spec zero_width_animation "clip.webp" "clip.mp4" 30 "2M" false
              Scenario.no_dirs) as [Hdirect _].
  specialize (Hdirect 0 480 eq_refl eq_refl eq_refl).
  vm_compute in Hdirect. discriminate Hdirect.
Qed.

(** The run of the counterexample, spelled out. *)
Example zero_width_gets_filter :
  getWebPDimensions zero_width_animation "clip.webp" = (0, 480, None) /\
  execs (log (convertDirectly zero_width_animation "clip.webp" "clip.mp4" 30
                "2M" false Scenario.no_dirs))
  = [("ffmpeg",
      ["-f"; "webp_pipe"; "-i"; "clip.webp"; "-c:v"; "libx264";
       "-pix_fmt"; "yuv420p"; "-r"; "30"; "-b:v"; "2M";
       "-vf"; "scale='trunc(iw/2)*2:trunc(ih/2)*2'";
       "-preset"; "medium"; "-movflags"; "+faststart"; "-y"; "clip.mp4"])].
Proof. split; vm_compute; reflexivity. Qed.

(** C4, amended.  When the probe returns dimensions that are both
    even:
    - Direct Converter, the dimensions being both positive, starts the
      transcoder with its input arguments followed at once by the output
      options: no scaling filter;
    - Direct Converter, one of the dimensions being zero or negative,
      takes the dimensions for unknown and puts the truncating filter
      between the input arguments and the output options;
    - Extraction Converter, the first frame of the listing having these
      dimensions, whatever their sign, ends the processes it starts with
      the reassembly, whose frame input arguments are followed at once by
      the output options: no scaling filter. *)
Theorem even_dimensions_scaling_filter
    env input output fps bitrate verbose fs :
  (forall width height,
      getWebPDimensions env input = (width, height, None) ->
      0 < width -> 0 < height ->
      Z.even width = true -> Z.even height = true ->
      execs (log (convertDirectly env input output fps bitrate verbose fs))
      = [("ffmpeg",
          (directInputArgs input fps bitrate ++ outputOptions output)%list)])
  /\
  (forall width height,
      getWebPDimensions env input = (width, height, None) ->
      width <= 0 \/ height <= 0 ->
      Z.even width = true -> Z.even height = true ->
      execs (log (convertDirectly env input output fps bitrate verbose fs))
      = [("ffmpeg",
          (directInputArgs input fps bitrate
             ++ ["-vf"; truncFilter] ++ outputOptions output)%list)])
  /\
  (forall tempDir pattern firstFrame rest width height,
      ioutil_TempDir env fs = inr tempDir ->
      In (EvGlob pattern (firstFrame :: rest))
         (log (convertViaExtraction env input output fps bitrate verbose fs)) ->
      getPNGDimensions env firstFrame = (width, height, None) ->
      Z.even width = true -> Z.even height = true ->
      exists extraction,
        execs (log (convertViaExtraction env input output fps bitrate
                      verbose fs))
        = (extraction
             ++ [("ffmpeg",
                  (framesInputArgs tempDir fps bitrate
                     ++ outputOptions output)%list)])%list /\
        incl extraction (extraction_commands input tempDir)).
Proof.
  split; [| split].
  - intros width height Hprobe Hw Hh Ew Eh.
    assert (Hw' : (0 <? width) = true) by now apply Z.ltb_lt.
    assert (Hh' : (0 <? height) = true) by now apply Z.ltb_lt.
    assert (Aw : (makeEven width =? width) = true)
      by (rewrite makeEven_even by assumption; apply Z.eqb_refl).
    assert (Ah : (makeEven height =? height) = true)
      by (rewrite makeEven_even by assumption; apply Z.eqb_refl).
    remember (convertDirectly env input output fps bitrate verbose fs)
      as out eqn:E.
    destruct verbose; exec_converter E.
    all: subst out; rewrite ?Aw, ?Ah; reflexivity.
  - intros width height Hprobe Hsmall _ _.
    remember (convertDirectly env input output fps bitrate verbose fs)
      as out eqn:E.
    destruct (0 <? width) eqn:Hw; destruct (0 <? height) eqn:Hh.
    1: (apply Z.ltb_lt in Hw, Hh; lia).
    all: destruct verbose; exec_converter E.
    all: subst out; cbn [log app execs flat_map].
    all: now rewrite <- app_assoc.
  - intros tempDir pattern firstFrame rest width height Htmp Hin Hpng Ew Eh.
    revert Hin.
    remember (convertViaExtraction env input output fps bitrate verbose fs)
      as out eqn:E.
    destruct verbose; exec_converter E.
    all: subst out; cbn [val log app execs flat_map]; intros Hin; in_log.
    all: match goal with
         | H1 : getPNGDimensions _ ?f = _, H2 : getPNGDimensions _ ?f = _ |- _ =>
             rewrite H1 in H2; injection H2 as; subst
         end.
    all: try congruence.
    all: repeat match goal with
           | H : (makeEven ?n =? ?n) = false, Ev : Z.even ?n = true |- _ =>
               rewrite (makeEven_even n Ev), Z.eqb_refl in H; discriminate H
           end.
    all: repeat match goal with
           | Ev : Z.even ?n = true |- context [makeEven ?n] =>
               rewrite (makeEven_even n Ev)
           end.
    all: rewrite ?Z.eqb_refl.
    all: cbn [negb orb app].
    all: unfold extraction_commands, incl.
    all: first
           [ exists [("ffmpeg",
                      extractArgs input (Join tempDir "frame_%03d.png"))];
             split; [reflexivity | intros; in_log; cbn [In]; tauto]
           | exists [("ffmpeg",
                      extractArgs input (Join tempDir "frame_%03d.png"));
                     ("convert",
                      [input; "-coalesce"; Join tempDir "frame_%03d.png"])];
             split; [reflexivity | intros; in_log; cbn [In]; tauto] ].
Qed.

Lemma even_dimensions_scaling_filter_witness :
  execs (log (convertDirectly Scenario.healthy "clip.webp" "clip.mp4" 30 "2M"
                false Scenario.no_dirs))
  = [("ffmpeg",
      (directInputArgs "clip.webp" 30 "2M" ++ outputOptions "clip.mp4")%list)]
  /\
  execs (log (convertDirectly zero_width_animation "clip.webp" "clip.mp4" 30
                "2M" false Scenario.no_dirs))
  = [("ffmpeg",
      (directInputArgs "clip.webp" 30 "2M"
         ++ ["-vf"; truncFilter] ++ outputOptions "clip.mp4")%list)]
  /\
  exists extraction,
    execs (log (convertViaExtraction Scenario.healthy "clip.webp" "clip.mp4"
                  30 "2M" false Scenario.no_dirs))
    = (extraction
         ++ [("ffmpeg",
              (framesInputArgs "/tmp/webp2mp4_1" 30 "2M"
                 ++ outputOptions "clip.mp4")%list)])%list /\
    incl extraction (extraction_commands "clip.webp" "/tmp/webp2mp4_1").
Proof.
  split; [| split].
  - apply (proj1 (even_dimensions_scaling_filter Scenario.healthy
                    "clip.webp" "clip.mp4" 30 "2M" false Scenario.no_dirs)
             640 480); reflexivity.
  - apply (proj1 (proj2 (even_dimensions_scaling_filter zero_width_animation
                           "clip.webp" "clip.mp4" 30 "2M" false
                           Scenario.no_dirs))
             0 480); try reflexivity.
    left. discriminate.
  - apply (proj2 (proj2 (even_dimensions_scaling_filter Scenario.healthy
                           "clip.webp" "clip.mp4" 30 "2M" false
                           Scenario.no_dirs))
             "/tmp/webp2mp4_1" "/tmp/webp2mp4_1/frame_*.png"
             "/tmp/webp2mp4_1/frame_001.png" ["/tmp/webp2mp4_1/frame_002.png"]
             640 480); try reflexivity.
    vm_compute. tauto.
Defined.

(** ** Strategy Selector *)

(** C1 as specified fails on an input file that does not exist: no
    converter is entered, and the selector fails even where Direct
    Converter would report success. *)
Lemma auto_mode_counterexample : ~ auto_mode_as_specified.
Proof.
  intros spec.
  destruct (spec Scenario.input_missing "clip.webp" "clip.mp4" 30 "2M" true
              Scenario.no_dirs) as [[rest Hlog] _].
  vm_compute in Hlog. discriminate Hlog.
Qed.

(** The run of the counterexample, spelled out. *)
Example auto_mode_on_missing_input :
  val (convertDirectly Scenario.input_missing "clip.webp" "clip.mp4" 30 "2M"
         true Scenario.no_dirs) = None /\
  val (convertWebPToMP4 Scenario.input_missing "clip.webp" "clip.mp4" 30 "2M"
         true "auto" Scenario.no_dirs)
  = Some (errorString "input file does not exist: clip.webp") /\
  log (convertWebPToMP4 Scenario.input_missing "clip.webp" "clip.mp4" 30 "2M"
         true "auto" Scenario.no_dirs) = [].
Proof. repeat split; vm_compute; reflexivity. Qed.

(** C1, amended.  In mode [auto], when the input file is reported
    missing the selector fails with the missing-input error and enters no
    converter.  Otherwise it starts with Direct Converter, entered once;
    where Direct Converter succeeds, Extraction Converter is not entered
    and the selector returns success; where it fails, the error is printed
    if [-v] is set and otherwise dropped, Extraction Converter is entered
    exactly once, on the state Direct Converter left, and its result is
    the selector's. *)
Theorem auto_mode_falls_back env input output fps bitrate verbose fs :
  let direct := convertDirectly env input output fps bitrate verbose fs in
  let out := convertWebPToMP4 env input output fps bitrate verbose "auto" fs in
  if missing env input then
    val out = Some (errorString ("input file does not exist: " ++ input)) /\
    log out = [] /\ post out = fs
  else
    (exists rest, log out = EvEnter Direct :: rest) /\
    entered Direct (log out) = 1%nat /\
    match val direct with
    | None =>
        entered Extraction (log out) = 0%nat /\
        val out = None /\ log out = log direct /\ post out = post direct
    | Some err =>
        let fallback :=
          convertViaExtraction env input output fps bitrate verbose
            (post direct) in
        entered Extraction (log out) = 1%nat /\
        val out = val fallback /\
        post out = post fallback /\
        log out =
          (log direct
             ++ (if verbose
                 then [EvStdout
                         ("Direct conversion failed, trying frame extraction method: "
                            ++ Error err ++ nl)]
                 else [])
             ++ log fallback)%list
    end.
Proof.
  intros direct out. subst direct out. unfold missing.
  pose proof (convertDirectly_log env input output fps bitrate verbose fs)
    as (Hhead & Hd & Hx & _).
  remember (convertWebPToMP4 env input output fps bitrate verbose "auto" fs)
    as out eqn:E.
  exec_selector E.
  all: subst out; cbn [val log post app] in *.
  all: try (repeat split; reflexivity).
  all: destruct Hhead as [rest ->].
  all: try match goal with
         | H : convertViaExtraction ?e ?i ?o ?f ?b ?v ?s = _ |- _ =>
             pose proof (convertViaExtraction_log e i o f b v s)
               as (_ & Hxx & Hxd);
             rewrite H in Hxx, Hxd; cbn [log] in Hxx, Hxd
         end.
  all: rewrite ?app_nil_r.
  all: repeat split; try reflexivity; try (eexists; reflexivity).
  all: try match goal with
         | H : convertViaExtraction _ _ _ _ _ _ _ = _ |- _ =>
             rewrite H; reflexivity
         end.
  all: unfold entered in *; cbn [filter List.length] in *.
  all: rewrite ?filter_app, ?length_app; cbn [filter List.length]; lia.
Qed.

(** C10 as specified fails on an input file that does not exist: Direct
    Converter is not entered. *)
Lemma other_methods_counterexample : ~ other_methods_as_specified.
Proof.
  intros spec.
  specialize (spec Scenario.input_missing "clip.webp" "clip.mp4" 30 "2M"
                false "foo" Scenario.no_dirs).
  assert (H : log (convertWebPToMP4 Scenario.input_missing "clip.webp"
                     "clip.mp4" 30 "2M" false "foo" Scenario.no_dirs)
              = log (convertDirectly Scenario.input_missing "clip.webp"
                       "clip.mp4" 30 "2M" false Scenario.no_dirs)).
  { rewrite spec; [reflexivity | discriminate | discriminate]. }
  vm_compute in H. discriminate H.
Qed.

(** C10, amended.  For every method other than [auto] and [extract],
    recognised or not, the selector validates nothing about the method:
    when the input file is reported missing it fails with the
    missing-input error and enters no converter, and otherwise it is
    Direct Converter, whose result, log and final state are the
    selector's. *)
Theorem other_methods_run_direct
    env input output fps bitrate verbose method fs :
  method <> "auto" -> method <> "extract" ->
  convertWebPToMP4 env input output fps bitrate verbose method fs
  = if missing env input
    then mkOut (Some (errorString ("input file does not exist: " ++ input)))
               [] fs
    else convertDirectly env input output fps bitrate verbose fs.
Proof.
  intros Hauto Hextract.
  apply String.eqb_neq in Hauto, Hextract.
  unfold convertWebPToMP4, missing.
  rewrite Hauto, Hextract.
  destruct (os_Stat env input) as [err |]; [| reflexivity].
  destruct (os_IsNotExist env err); reflexivity.
Qed.

Lemma other_methods_run_direct_witness :
  convertWebPToMP4 Scenario.healthy "clip.webp" "clip.mp4" 30 "2M" false "foo"
    Scenario.no_dirs
  = convertDirectly Scenario.healthy "clip.webp" "clip.mp4" 30 "2M" false
      Scenario.no_dirs.
Proof.
  apply (other_methods_run_direct Scenario.healthy "clip.webp" "clip.mp4" 30
           "2M" false "foo" Scenario.no_dirs); discriminate.
Defined.

(** * Further properties *)

(** ** [makeEven] on every [int] *)

Section MakeEvenEverywhere.

Lemma wrap_parity n : Z.even (GoInt.wrap n) = Z.even n.
Proof.
  unfold GoInt.wrap, GoInt.min_int, GoInt.bits.
  change (2 ^ (64 - 1)) with 9223372036854775808.
  change (2 ^ 64) with 18446744073709551616.
  rewrite Z.mod_eq by discriminate.
  match goal with |- context [?a / ?b] => generalize (a / b); intros q end.
  match goal with
  | |- Z.even ?x = _ =>
      replace x with (n + 2 * (- 9223372036854775808 * q)) by lia
  end.
  apply Z.even_add_mul_2.
Qed.

Lemma wrap_range n : GoInt.in_range (GoInt.wrap n).
Proof.
  unfold GoInt.in_range, GoInt.wrap, GoInt.min_int, GoInt.max_int, GoInt.bits.
  pose proof (Z.mod_pos_bound (n - - 2 ^ (64 - 1)) (2 ^ 64)) as H.
  assert (0 < 2 ^ 64) by (vm_compute; reflexivity).
  specialize (H H0). lia.
Qed.

Lemma makeEven_parity n : Z.even (makeEven n) = true.
Proof.
  unfold makeEven, GoInt.add. rewrite rem2_even.
  destruct (Z.even n) eqn:E; simpl; [exact E |].
  rewrite wrap_parity, Z.even_add, E. reflexivity.
Qed.

End MakeEvenEverywhere.

(** X1.  [makeEven] never returns an odd value and never leaves the
    range of [int]: this holds for every [int], the largest included,
    where the addition wraps around. *)
Theorem makeEven_always_even (n : Z) :
  GoInt.in_range n ->
  Z.even (makeEven n) = true /\ GoInt.in_range (makeEven n).
Proof.
  intros Hn. split; [apply makeEven_parity |].
  unfold makeEven, GoInt.add.
  destruct (negb (GoInt.rem n 2 =? 0)); [apply wrap_range | exact Hn].
Qed.

Lemma makeEven_always_even_witness :
  Z.even (makeEven GoInt.max_int) = true /\
  GoInt.in_range (makeEven GoInt.max_int).
Proof.
  apply (makeEven_always_even GoInt.max_int).
  vm_compute. split; discriminate.
Defined.

(** X2.  Correcting a corrected dimension changes nothing. *)
Theorem makeEven_idempotent (n : Z) : makeEven (makeEven n) = makeEven n.
Proof. apply makeEven_even, makeEven_parity. Qed.

(** X3.  Below the largest [int], [makeEven n] is the least even integer
    that is not below [n]: it is even, it is not below [n], and no even
    integer from [n] on is below it. *)
Theorem makeEven_least_even (n : Z) :
  GoInt.min_int <= n < GoInt.max_int ->
  Z.even (makeEven n) = true /\
  n <= makeEven n /\
  forall e, Z.even e = true -> n <= e -> makeEven n <= e.
Proof.
  intros Hn. split; [apply makeEven_parity |].
  rewrite (makeEven_spec n Hn).
  destruct (Z.even n) eqn:E; cbv iota; split; try lia.
  intros e He Hle.
  assert (e <> n) by (intros ->; congruence).
  lia.
Qed.

Lemma makeEven_least_even_witness :
  Z.even (makeEven (-7)) = true /\
  -7 <= makeEven (-7) /\
  forall e, Z.even e = true -> -7 <= e -> makeEven (-7) <= e.
Proof.
  apply (makeEven_least_even (-7)).
  vm_compute. split; [discriminate | reflexivity].
Defined.

(** ** The default output path, continued *)

Section DefaultOutputMore.

Lemma append_nil_r (s : string) : s ++ "" = s.
Proof. induction s as [| c s IH]; simpl; [reflexivity | now rewrite IH]. Qed.

Lemma append_assoc (a b c : string) : (a ++ b) ++ c = a ++ b ++ c.
Proof. induction a as [| x a IH]; simpl; [reflexivity | now rewrite IH]. Qed.

Lemma append_cancel_l (a b c : string) : a ++ b = a ++ c -> b = c.
Proof.
  induction a as [| x a IH]; simpl; intros H; [exact H |].
  injection H as H. now apply IH.
Qed.

(** Walking back over plain bytes, the loop of [Ext] stops at the first
    dot and returns it with the bytes walked over. *)
Lemma Ext_loop_dot l rest seen :
  Forall (fun c => Ascii.eqb c slash = false /\ Ascii.eqb c dot = false) l ->
  Ext_loop (l ++ dot :: rest)%list seen = (dot :: rev l ++ seen)%list.
Proof.
  intros H. revert seen.
  induction H as [| c l [Hs Hd] _ IH]; intros seen; simpl.
  - reflexivity.
  - rewrite Hs, Hd, IH. now rewrite <- app_assoc.
Qed.

(** Walking back over plain bytes to a separator, it finds no
    extension. *)
Lemma Ext_loop_slash l rest seen :
  Forall (fun c => Ascii.eqb c slash = false /\ Ascii.eqb c dot = false) l ->
  Ext_loop (l ++ slash :: rest)%list seen = [].
Proof.
  intros H. revert seen.
  induction H as [| c l [Hs Hd] _ IH]; intros seen; simpl.
  - reflexivity.
  - now rewrite Hs, Hd, IH.
Qed.

Lemma plain_rev name :
  plain name ->
  Forall (fun c => Ascii.eqb c slash = false /\ Ascii.eqb c dot = false)
         (rev (list_ascii_of_string name)).
Proof. unfold plain. intros H. now apply Forall_rev. Qed.

Lemma Ext_plain_extension base e :
  plain e -> Ext (base ++ String dot e) = String dot e.
Proof.
  intros He. unfold Ext.
  rewrite list_ascii_of_string_app. simpl list_ascii_of_string.
  rewrite rev_app_distr. simpl rev. rewrite <- app_assoc. simpl app.
  rewrite (Ext_loop_dot _ _ _ (plain_rev e He)).
  rewrite rev_involutive, app_nil_r. simpl.
  now rewrite string_of_list_ascii_of_string.
Qed.

Lemma Ext_plain_name dir name :
  plain name -> Ext (dir ++ String slash name) = "".
Proof.
  intros Hn. unfold Ext.
  rewrite list_ascii_of_string_app. simpl list_ascii_of_string.
  rewrite rev_app_distr. simpl rev. rewrite <- app_assoc. simpl app.
  now rewrite (Ext_loop_slash _ _ _ (plain_rev name Hn)).
Qed.

Lemma plain_mp4 : plain "mp4".
Proof. unfold plain. simpl. repeat constructor. Qed.

(** The default output is the stem of the input, whichever way the
    input is cut into a stem and its extension, followed by [.mp4]. *)
Lemma defaultOutput_of_stem stem input :
  input = stem ++ Ext input -> defaultOutput input "" = stem ++ ".mp4".
Proof.
  intros H. unfold defaultOutput. simpl.
  rewrite H at 1. now rewrite TrimSuffix_append.
Qed.

End DefaultOutputMore.

(** X4.  When [-o] is absent the output path always has the extension
    [.mp4], whatever the input path is. *)
Theorem defaultOutput_extension (input : string) :
  Ext (defaultOutput input "") = ".mp4".
Proof.
  destruct (Ext_suffix input) as [stem E].
  rewrite (defaultOutput_of_stem stem input E).
  apply (Ext_plain_extension stem "mp4" plain_mp4).
Qed.

(** X5.  When [-o] is absent the output path is the input path itself
    exactly when the input already has the extension [.mp4]: the
    conversion then writes over its own input. *)
Theorem defaultOutput_overwrites_input (input : string) :
  defaultOutput input "" = input <-> Ext input = ".mp4".
Proof.
  destruct (Ext_suffix input) as [stem E].
  rewrite (defaultOutput_of_stem stem input E). split; intros H.
  - rewrite E in H at 1. apply append_cancel_l in H. now symmetry.
  - rewrite E at 1. now rewrite H.
Qed.

(** X6.  Taking the default output path of a default output path gives
    it back. *)
Theorem defaultOutput_idempotent (input : string) :
  defaultOutput (defaultOutput input "") "" = defaultOutput input "".
Proof.
  destruct (Ext_suffix input) as [stem E].
  rewrite (defaultOutput_of_stem stem input E).
  apply defaultOutput_of_stem.
  pose proof (Ext_plain_extension stem "mp4" plain_mp4) as H.
  change (String dot "mp4") with ".mp4" in H. now rewrite H.
Qed.

(** X7.  A dot in a directory name is not taken for an extension: for a
    file name without a dot, [.mp4] is added to the whole path. *)
Theorem defaultOutput_keeps_directory_dots (dir name : string) :
  plain name ->
  defaultOutput (dir ++ "/" ++ name) "" = dir ++ "/" ++ name ++ ".mp4".
Proof.
  intros Hn.
  rewrite (defaultOutput_of_stem (dir ++ "/" ++ name)).
  - now rewrite !append_assoc.
  - change (dir ++ "/" ++ name) with (dir ++ String slash name).
    rewrite (Ext_plain_name dir name Hn). now rewrite append_nil_r.
Qed.

Lemma defaultOutput_keeps_directory_dots_witness :
  defaultOutput ("anim.v2" ++ "/" ++ "clip") "" = "anim.v2" ++ "/" ++ "clip" ++ ".mp4".
Proof.
  apply (defaultOutput_keeps_directory_dots "anim.v2" "clip").
  unfold plain. simpl. repeat constructor.
Defined.

(** X8.  Only the last extension is replaced: what precedes the last
    dot of the file name is kept as it is, dots included. *)
Theorem defaultOutput_replaces_last_extension (base e : string) :
  plain e ->
  defaultOutput (base ++ "." ++ e) "" = base ++ ".mp4".
Proof.
  intros He. apply defaultOutput_of_stem.
  change (base ++ "." ++ e) with (base ++ String dot e).
  now rewrite (Ext_plain_extension base e He).
Qed.

Lemma defaultOutput_replaces_last_extension_witness :
  defaultOutput ("clip.final" ++ "." ++ "webp") "" = "clip.final" ++ ".mp4".
Proof.
  apply (defaultOutput_replaces_last_extension "clip.final" "webp").
  unfold plain. simpl. repeat constructor.
Defined.

(** ** Direct Converter, continued *)

Lemma exit_status_zero code : exit_status code = None -> (code =? 0) = true.
Proof. unfold exit_status. now destruct (code =? 0). Qed.

Lemma exit_status_nonzero code err :
  exit_status code = Some err -> (code =? 0) = false /\ err = ExitError code.
Proof.
  unfold exit_status. destruct (code =? 0); [discriminate |].
  intros H. injection H as <-. now split.
Qed.

(** X9.  What Direct Converter returns, from what the one transcoder
    process it starts does.  With [-v] it returns success whatever
    happens to the process.  Without [-v] it always fails: with the error
    of the process and the output captured from it when the process
    cannot be started or exits non-zero, and with "exec: already started"
    when the process exits zero.  The filesystem is left as the process
    left it. *)
Theorem convertDirectly_verdict env input output fps bitrate verbose fs :
  let out := convertDirectly env input output fps bitrate verbose fs in
  exists args,
    execs (log out) = [("ffmpeg", args)] /\
    match run_process env "ffmpeg" args fs with
    | StartFailed err =>
        post out = fs /\
        val out =
          if verbose then None
          else Some (wrapError ("ffmpeg failed: " ++ Error err ++ nl
                                  ++ "Output: ") err)
    | Exited code text fs' =>
        post out = fs' /\
        val out =
          if verbose then None
          else if code =? 0
          then Some (Errorf_w "ffmpeg failed: "
                       (errorString "exec: already started"))
          else Some (wrapError ("ffmpeg failed: " ++ Error (ExitError code)
                                  ++ nl ++ "Output: " ++ text)
                       (ExitError code))
    end.
Proof.
  intros out. subst out.
  remember (convertDirectly env input output fps bitrate verbose fs)
    as out eqn:E.
  destruct verbose; exec_converter E.
  all: subst out; cbn [val log post app execs flat_map].
  all: eexists; split; [reflexivity |].
  all: match goal with
       | H : run_process _ _ _ _ = _ |- _ => rewrite H
       end.
  all: try match goal with
         | H : exit_status _ = None |- _ =>
             apply exit_status_zero in H; rewrite ?H
         | H : exit_status _ = Some _ |- _ =>
             apply exit_status_nonzero in H; destruct H as [H ->]; rewrite ?H
         end.
  all: split; reflexivity.
Qed.

Lemma makeEven_changes_odd n : Z.odd n = true -> (makeEven n =? n) = false.
Proof.
  intros Ho. apply Z.eqb_neq. intros E.
  pose proof (makeEven_parity n) as He. rewrite E in He.
  rewrite <- Z.negb_odd, Ho in He. discriminate He.
Qed.

Lemma makeEven_keeps_even n : Z.odd n = false -> (makeEven n =? n) = true.
Proof.
  intros Ho. rewrite makeEven_even; [apply Z.eqb_refl |].
  now rewrite <- Z.negb_odd, Ho.
Qed.

(** X10.  When the probe of the input returns positive dimensions of
    which at least one is odd, Direct Converter starts the transcoder
    with a lanczos scale to the corrected dimensions, which are both
    even. *)
Theorem convertDirectly_scales_odd_dimensions
    env input output fps bitrate verbose fs width height :
  getWebPDimensions env input = (width, height, None) ->
  0 < width -> 0 < height ->
  Z.odd width = true \/ Z.odd height = true ->
  execs (log (convertDirectly env input output fps bitrate verbose fs))
  = [("ffmpeg",
      (directInputArgs input fps bitrate
         ++ ["-vf"; lanczosFilter (makeEven width) (makeEven height)]
         ++ outputOptions output)%list)] /\
  Z.even (makeEven width) = true /\ Z.even (makeEven height) = true.
Proof.
  intros Hprobe Hw Hh Hodd.
  split; [| split; apply makeEven_parity].
  assert (Hw' : (0 <? width) = true) by now apply Z.ltb_lt.
  assert (Hh' : (0 <? height) = true) by now apply Z.ltb_lt.
  assert (Hadjust : negb (makeEven width =? width)
                    || negb (makeEven height =? height) = true).
  { destruct Hodd as [Ho | Ho]; rewrite (makeEven_changes_odd _ Ho);
      [reflexivity | apply orb_true_r]. }
  remember (convertDirectly env input output fps bitrate verbose fs)
    as out eqn:E.
  destruct (makeEven width =? width) eqn:Aw;
    destruct (makeEven height =? height) eqn:Ah;
    try discriminate Hadjust.
  all: destruct verbose; exec_converter E.
  all: subst out; rewrite ?Aw, ?Ah; cbn [log app execs flat_map negb orb].
  all: now rewrite <- app_assoc.
Qed.

Lemma convertDirectly_scales_odd_dimensions_witness :
  execs (log (convertDirectly odd_animation "clip.webp" "clip.mp4" 30 "2M"
                false Scenario.no_dirs))
  = [("ffmpeg",
      (directInputArgs "clip.webp" 30 "2M"
         ++ ["-vf"; lanczosFilter (makeEven 641) (makeEven 480)]
         ++ outputOptions "clip.mp4")%list)] /\
  Z.even (makeEven 641) = true /\ Z.even (makeEven 480) = true.
Proof.
  apply (convertDirectly_scales_odd_dimensions odd_animation "clip.webp"
           "clip.mp4" 30 "2M" false Scenario.no_dirs 641 480);
    try reflexivity.
  left. reflexivity.
Defined.

(** X11.  A header that decodes without error to a width or height that
    is not positive is treated as a failed probe: Direct Converter starts
    the transcoder with the truncating filter. *)
Theorem convertDirectly_nonpositive_dimensions
    env input output fps bitrate verbose fs width height :
  getWebPDimensions env input = (width, height, None) ->
  width <= 0 \/ height <= 0 ->
  execs (log (convertDirectly env input output fps bitrate verbose fs))
  = [("ffmpeg",
      (directInputArgs input fps bitrate
         ++ ["-vf"; "scale='trunc(iw/2)*2:trunc(ih/2)*2'"]
         ++ outputOptions output)%list)].
Proof.
  intros Hprobe Hsmall.
  remember (convertDirectly env input output fps bitrate verbose fs)
    as out eqn:E.
  destruct (0 <? width) eqn:Hw; destruct (0 <? height) eqn:Hh.
  1: (apply Z.ltb_lt in Hw, Hh; lia).
  all: destruct verbose; exec_converter E.
  all: subst out; cbn [log app execs flat_map].
  all: now rewrite <- app_assoc.
Qed.

Lemma convertDirectly_nonpositive_dimensions_witness :
  execs (log (convertDirectly zero_width_animation "clip.webp" "clip.mp4" 30
                "2M" false Scenario.no_dirs))
  = [("ffmpeg",
      (directInputArgs "clip.webp" 30 "2M"
         ++ ["-vf"; "scale='trunc(iw/2)*2:trunc(ih/2)*2'"]
         ++ outputOptions "clip.mp4")%list)].
Proof.
  apply (convertDirectly_nonpositive_dimensions zero_width_animation
           "clip.webp" "clip.mp4" 30 "2M" false Scenario.no_dirs 0 480).
  - reflexivity.
  - left. discriminate.
Defined.

(** ** Extraction Converter, continued *)

(** X12.  When the first frame of the listing has dimensions of which at
    least one is odd, Extraction Converter ends the processes it starts
    with the reassembly, scaled with lanczos to the corrected dimensions,
    which are both even. *)
Theorem convertViaExtraction_scales_odd_dimensions
    env input output fps bitrate verbose fs
    tempDir pattern firstFrame rest width height :
  ioutil_TempDir env fs = inr tempDir ->
  In (EvGlob pattern (firstFrame :: rest))
     (log (convertViaExtraction env input output fps bitrate verbose fs)) ->
  getPNGDimensions env firstFrame = (width, height, None) ->
  Z.odd width = true \/ Z.odd height = true ->
  (exists extraction,
      execs (log (convertViaExtraction env input output fps bitrate
                    verbose fs))
      = (extraction
           ++ [reassembly_command tempDir fps bitrate output
                 ["-vf"; lanczosFilter (makeEven width) (makeEven height)]])%list
      /\ incl extraction (extraction_commands input tempDir)) /\
  Z.even (makeEven width) = true /\ Z.even (makeEven height) = true.
Proof.
  intros Htmp Hin Hpng Hodd.
  split; [| split; apply makeEven_parity].
  assert (Hadjust : negb (makeEven width =? width)
                    || negb (makeEven height =? height) = true).
  { destruct Hodd as [Ho | Ho]; rewrite (makeEven_changes_odd _ Ho);
      [reflexivity | apply orb_true_r]. }
  revert Hin.
  remember (convertViaExtraction env input output fps bitrate verbose fs)
    as out eqn:E.
  destruct verbose; exec_converter E.
  all: subst out; cbn [val log app execs flat_map]; intros Hin; in_log.
  all: match goal with
       | H1 : getPNGDimensions _ ?f = _, H2 : getPNGDimensions _ ?f = _ |- _ =>
           rewrite H1 in H2; injection H2 as; subst
       end.
  all: try congruence.
  all: try match goal with
         | H1 : (makeEven ?a =? ?a) = true, H2 : (makeEven ?b =? ?b) = true,
           H : negb (makeEven ?a =? ?a) || negb (makeEven ?b =? ?b) = true
           |- _ => rewrite H1, H2 in H; discriminate H
         end.
  all: rewrite ?Hadjust.
  all: unfold reassembly_command, extraction_commands, incl.
  all: first
         [ exists [("ffmpeg",
                    extractArgs input (Join tempDir "frame_%03d.png"))];
           split; [cbn [app]; now rewrite <- ?app_assoc
                  | intros; in_log; cbn [In]; tauto]
         | exists [("ffmpeg",
                    extractArgs input (Join tempDir "frame_%03d.png"));
                   ("convert",
                    [input; "-coalesce"; Join tempDir "frame_%03d.png"])];
           split; [cbn [app]; now rewrite <- ?app_assoc
                  | intros; in_log; cbn [In]; tauto] ].
Qed.

Lemma convertViaExtraction_scales_odd_dimensions_witness :
  (exists extraction,
      execs (log (convertViaExtraction odd_animation "clip.webp" "clip.mp4"
                    30 "2M" false Scenario.no_dirs))
      = (extraction
           ++ [reassembly_command "/tmp/webp2mp4_1" 30 "2M" "clip.mp4"
                 ["-vf"; lanczosFilter (makeEven 641) (makeEven 480)]])%list
      /\ incl extraction (extraction_commands "clip.webp" "/tmp/webp2mp4_1")) /\
  Z.even (makeEven 641) = true /\ Z.even (makeEven 480) = true.
Proof.
  apply (convertViaExtraction_scales_odd_dimensions odd_animation "clip.webp"
           "clip.mp4" 30 "2M" false Scenario.no_dirs "/tmp/webp2mp4_1"
           "/tmp/webp2mp4_1/frame_*.png" "/tmp/webp2mp4_1/frame_001.png"
           ["/tmp/webp2mp4_1/frame_002.png"] 641 480); try reflexivity.
  - vm_compute. tauto.
  - left. reflexivity.
Defined.

(** X13.  Extraction Converter starts at most three processes, in this
    order: the transcoder extracting the frames, the image tool if it is
    needed, and the reassembly, which reads the frame pattern the
    extraction wrote, at the frame rate and bitrate asked for, and writes
    the output path.  When the scratch directory cannot be created it
    starts none. *)
Theorem convertViaExtraction_processes
    env input output fps bitrate verbose fs :
  let out := convertViaExtraction env input output fps bitrate verbose fs in
  match ioutil_TempDir env fs with
  | inl _ => execs (log out) = []
  | inr tempDir =>
      let primary :=
        ("ffmpeg", extractArgs input (Join tempDir "frame_%03d.png")) in
      let fallback :=
        ("convert", [input; "-coalesce"; Join tempDir "frame_%03d.png"]) in
      exists tail,
        execs (log out) = primary :: tail /\
        (tail = [] \/ tail = [fallback] \/
         exists filter,
           (filter = [] \/ exists w h, filter = ["-vf"; lanczosFilter w h]) /\
           (tail = [reassembly_command tempDir fps bitrate output filter] \/
            tail = [fallback;
                    reassembly_command tempDir fps bitrate output filter]))
  end.
Proof.
  intros out. subst out.
  remember (convertViaExtraction env input output fps bitrate verbose fs)
    as out eqn:E.
  destruct verbose; exec_converter E.
  all: subst out; cbn [log app execs flat_map]; try reflexivity.
  all: eexists; split; [reflexivity |].
  all: try (left; reflexivity).
  all: try (right; left; reflexivity).
  all: right; right; unfold reassembly_command.
  all: repeat match goal with
         | |- context [if ?b then _ else _] => destruct b
         end.
  all: first
         [ exists []; split; [left; reflexivity |];
           first [left; cbn [app]; now rewrite <- ?app_assoc
                 | right; cbn [app]; now rewrite <- ?app_assoc]
         | eexists; split; [right; do 2 eexists; reflexivity |];
           first [left; cbn [app]; now rewrite <- ?app_assoc
                 | right; cbn [app]; now rewrite <- ?app_assoc] ].
Qed.

(** X14.  The image tool is started exactly when the extraction by the
    transcoder returned an error. *)
Theorem convertViaExtraction_fallback_condition
    env input output fps bitrate verbose fs :
  let out := convertViaExtraction env input output fps bitrate verbose fs in
  (exists args err, In (EvExec "convert" args err) (log out)) <->
  (exists args err,
      In (EvExec "ffmpeg" ("-i" :: args) (Some err)) (log out)).
Proof.
  intros out. subst out.
  remember (convertViaExtraction env input output fps bitrate verbose fs)
    as out eqn:E.
  destruct verbose; exec_converter E.
  all: subst out; cbn [log app]; unfold extractArgs, framesInputArgs.
  all: split; intros (cmdArgs & cmdErr & Hin); in_log.
  all: try discriminate.
  all: try (do 2 eexists; cbn [In]; tauto).
  all: try match goal with
         | H : (_ ++ _)%list = _ |- _ =>
             repeat match type of H with
               | context [if ?b then _ else _] => destruct b
               end; discriminate H
         end.
Qed.

(** X15.  Extraction Converter returns success exactly when the
    reassembly was started and returned no error. *)
Theorem convertViaExtraction_success
    env input output fps bitrate verbose fs :
  let out := convertViaExtraction env input output fps bitrate verbose fs in
  val out = None <->
  exists args, In (EvExec "ffmpeg" ("-framerate" :: args) None) (log out).
Proof.
  intros out. subst out.
  remember (convertViaExtraction env input output fps bitrate verbose fs)
    as out eqn:E.
  destruct verbose; exec_converter E.
  all: subst out; cbn [val log app]; unfold extractArgs, framesInputArgs.
  all: split; [intros H; try discriminate H | intros (cmdArgs & Hin); in_log].
  all: try reflexivity; try discriminate.
  all: try match goal with
         | H : (_ ++ _)%list = _ |- _ =>
             repeat match type of H with
               | context [if ?b then _ else _] => destruct b
               end; discriminate H
         end.
  all: repeat match goal with
         | |- context [if ?b then _ else _] => destruct b
         end.
  all: eexists; cbn [In app]; tauto.
Qed.

(** ** Strategy Selector, continued *)

Lemma printed_app l1 l2 : printed (l1 ++ l2)%list = (printed l1 ++ printed l2)%list.
Proof. unfold printed. apply filter_app. Qed.

Lemma convertDirectly_quiet env input output fps bitrate fs :
  printed (log (convertDirectly env input output fps bitrate false fs)) = [].
Proof.
  remember (convertDirectly env input output fps bitrate false fs)
    as out eqn:E.
  exec_converter E.
  all: subst out; reflexivity.
Qed.

Lemma convertViaExtraction_quiet env input output fps bitrate fs :
  printed (log (convertViaExtraction env input output fps bitrate false fs))
  = [].
Proof.
  remember (convertViaExtraction env input output fps bitrate false fs)
    as out eqn:E.
  exec_converter E.
  all: subst out; reflexivity.
Qed.

(** X16.  Without [-v] a conversion writes nothing to the console, in any
    mode and however it ends: the output of the processes is captured or
    discarded, and no progress line is printed. *)
Theorem quiet_conversion_prints_nothing
    env input output fps bitrate method fs :
  printed (log (convertWebPToMP4 env input output fps bitrate false method fs))
  = [].
Proof.
  remember (convertWebPToMP4 env input output fps bitrate false method fs)
    as out eqn:E.
  exec_selector E.
  all: subst out; cbn [log app]; rewrite ?printed_app.
  all: repeat match goal with
         | H : convertDirectly ?e ?i ?o ?f ?b false ?s = _ |- _ =>
             let Hq := fresh "Hq" in
             pose proof (convertDirectly_quiet e i o f b s) as Hq;
             rewrite H in Hq; cbn [log] in Hq; rewrite Hq; clear H
         | H : convertViaExtraction ?e ?i ?o ?f ?b false ?s = _ |- _ =>
             let Hq := fresh "Hq" in
             pose proof (convertViaExtraction_quiet e i o f b s) as Hq;
             rewrite H in Hq; cbn [log] in Hq; rewrite Hq; clear H
         end.
  all: reflexivity.
Qed.

(** Mode [auto] without [-v], the input not reported missing: the run
    is that of Direct Converter followed by that of Extraction
    Converter. *)
Lemma auto_quiet_run env input output fps bitrate fs :
  missing env input = false ->
  let direct := convertDirectly env input output fps bitrate false fs in
  let fallback :=
    convertViaExtraction env input output fps bitrate false (post direct) in
  convertWebPToMP4 env input output fps bitrate false "auto" fs
  = mkOut (val fallback) (log direct ++ log fallback)%list (post fallback).
Proof.
  intros Hpresent direct fallback. subst direct fallback.
  unfold missing in Hpresent.
  pose proof (convertDirectly_result env input output fps bitrate false fs)
    as Hresult.
  remember (convertWebPToMP4 env input output fps bitrate false "auto" fs)
    as out eqn:E.
  exec_selector E.
  all: try discriminate Hpresent.
  all: subst out; cbn [val log post app] in *.
  all: try (exfalso; destruct Hresult as [Hresult _];
            specialize (Hresult eq_refl); discriminate Hresult).
  all: match goal with
       | H : convertViaExtraction _ _ _ _ _ _ _ = _ |- _ => rewrite H
       end.
  all: reflexivity.
Qed.

(** X17.  In mode [auto] without [-v], on an input that is not reported
    missing, the selector always falls back: Direct Converter runs its
    transcoder and fails, Extraction Converter is entered exactly once on
    the state Direct Converter left, and its result is the selector's. *)
Theorem auto_quiet_always_falls_back env input output fps bitrate fs :
  missing env input = false ->
  let direct := convertDirectly env input output fps bitrate false fs in
  let fallback :=
    convertViaExtraction env input output fps bitrate false (post direct) in
  let out := convertWebPToMP4 env input output fps bitrate false "auto" fs in
  val direct <> None /\
  entered Extraction (log out) = 1%nat /\
  log out = (log direct ++ log fallback)%list /\
  val out = val fallback /\
  post out = post fallback.
Proof.
  intros Hpresent direct fallback out. subst direct fallback out.
  rewrite (auto_quiet_run env input output fps bitrate fs Hpresent).
  cbn [val log post].
  pose proof (convertDirectly_result env input output fps bitrate false fs)
    as Hresult.
  pose proof (convertDirectly_log env input output fps bitrate false fs)
    as (_ & _ & Hx & _).
  pose proof (convertViaExtraction_log env input output fps bitrate false
                (post (convertDirectly env input output fps bitrate false fs)))
    as (_ & Hxx & _).
  repeat split.
  - intros H. apply Hresult in H. discriminate H.
  - now rewrite entered_app, Hx, Hxx.
Qed.

Lemma auto_quiet_always_falls_back_witness :
  let direct := convertDirectly Scenario.healthy "clip.webp" "clip.mp4" 30
                  "2M" false Scenario.no_dirs in
  let fallback :=
    convertViaExtraction Scenario.healthy "clip.webp" "clip.mp4" 30 "2M"
      false (post direct) in
  let out := convertWebPToMP4 Scenario.healthy "clip.webp" "clip.mp4" 30 "2M"
               false "auto" Scenario.no_dirs in
  val direct <> None /\
  entered Extraction (log out) = 1%nat /\
  log out = (log direct ++ log fallback)%list /\
  val out = val fallback /\
  post out = post fallback.
Proof.
  apply (auto_quiet_always_falls_back Scenario.healthy "clip.webp" "clip.mp4"
           30 "2M" Scenario.no_dirs).
  reflexivity.
Defined.

(** X18.  In mode [auto] with [-v], on an input that is not reported
    missing, the selector never falls back and always returns success:
    it is Direct Converter, which runs one command and drops its error,
    the failure to start the process included. *)
Theorem auto_verbose_never_falls_back env input output fps bitrate fs :
  missing env input = false ->
  let out := convertWebPToMP4 env input output fps bitrate true "auto" fs in
  out = convertDirectly env input output fps bitrate true fs /\
  val out = None /\
  entered Extraction (log out) = 0%nat /\
  exists args, execs (log out) = [("ffmpeg", args)].
Proof.
  intros Hpresent out. subst out.
  unfold missing in Hpresent.
  pose proof (convertDirectly_result env input output fps bitrate true fs)
    as Hresult.
  pose proof (convertDirectly_log env input output fps bitrate true fs)
    as (_ & _ & Hx & Hexecs).
  remember (convertWebPToMP4 env input output fps bitrate true "auto" fs)
    as out eqn:E.
  exec_selector E.
  all: try discriminate Hpresent.
  all: subst out; cbn [val log post app] in *.
  all: try (exfalso; destruct Hresult as [_ Hresult];
            specialize (Hresult eq_refl); discriminate Hresult).
  all: rewrite ?app_nil_r.
  all: repeat split; try reflexivity; assumption.
Qed.

Lemma auto_verbose_never_falls_back_witness :
  let out := convertWebPToMP4 Scenario.failing_tools "clip.webp" "clip.mp4"
               30 "2M" true "auto" Scenario.no_dirs in
  out = convertDirectly Scenario.failing_tools "clip.webp" "clip.mp4" 30 "2M"
          true Scenario.no_dirs /\
  val out = None /\
  entered Extraction (log out) = 0%nat /\
  exists args, execs (log out) = [("ffmpeg", args)].
Proof.
  apply (auto_verbose_never_falls_back Scenario.failing_tools "clip.webp"
           "clip.mp4" 30 "2M" Scenario.no_dirs).
  reflexivity.
Defined.

(** ** The process: [init] and [main] *)

Lemma convertViaExtraction_success_started
    env input output fps bitrate verbose fs :
  val (convertViaExtraction env input output fps bitrate verbose fs) = None ->
  execs (log (convertViaExtraction env input output fps bitrate verbose fs))
  <> [].
Proof.
  remember (convertViaExtraction env input output fps bitrate verbose fs)
    as out eqn:E.
  destruct verbose; exec_converter E.
  all: subst out; cbn [val log app execs flat_map]; intros H.
  all: discriminate.
Qed.

(** A conversion that returns success found its input and started a
    process. *)
Lemma conversion_success_started
    env input output fps bitrate verbose method fs :
  val (convertWebPToMP4 env input output fps bitrate verbose method fs) = None ->
  missing env input = false /\
  execs (log (convertWebPToMP4 env input output fps bitrate verbose method fs))
  <> [].
Proof.
  unfold missing.
  remember (convertWebPToMP4 env input output fps bitrate verbose method fs)
    as out eqn:E.
  exec_selector E.
  all: subst out; cbn [val log app]; intros Hval; try discriminate Hval.
  all: split; [reflexivity |].
  all: rewrite ?execs_app.
  all: try match goal with
         | H : convertDirectly ?e ?i ?o ?f ?b ?v ?s = _ |- _ =>
             pose proof (convertDirectly_log e i o f b v s)
               as (_ & _ & _ & [args Hexecs]);
             rewrite H in Hexecs; cbn [log] in Hexecs; rewrite Hexecs;
             discriminate
         end.
  all: match goal with
       | H : convertViaExtraction ?e ?i ?o ?f ?b ?v ?s = _ |- _ =>
           pose proof (convertViaExtraction_success_started e i o f b v s)
             as Hstarted;
           rewrite H in Hstarted; cbn [val log] in Hstarted;
           now apply Hstarted
       end.
Qed.

(** X19.  When [ffmpeg] is not found, the process ends in [init] with
    status 1 and two lines on standard error, whatever its flags are:
    no flag is looked at, no usage text is printed, no file is touched
    and no process is started. *)
Theorem run_without_ffmpeg env st flags fs err :
  exec_LookPath st "ffmpeg" = Some err ->
  run env st flags fs
  = mkOut 1
      [EvStderr ("Error: ffmpeg is not installed or not in PATH" ++ nl);
       EvStderr ("Please install ffmpeg first." ++ nl)]
      fs.
Proof.
  intros Hff. unfold run, init, checkDependencies. rewrite Hff. reflexivity.
Qed.

Lemma run_without_ffmpeg_witness :
  run Scenario.healthy (startup (Some Scenario.enoent) None)
    (flags_for "clip.webp" false "auto") Scenario.no_dirs
  = mkOut 1
      [EvStderr ("Error: ffmpeg is not installed or not in PATH" ++ nl);
       EvStderr ("Please install ffmpeg first." ++ nl)]
      Scenario.no_dirs.
Proof.
  apply (run_without_ffmpeg Scenario.healthy (startup (Some Scenario.enoent) None)
           (flags_for "clip.webp" false "auto") Scenario.no_dirs Scenario.enoent).
  reflexivity.
Defined.

(** X20.  When [ffmpeg] is found, a missing ImageMagick costs one
    warning on standard error and nothing else: the process is [main],
    with the same exit status and the same effects. *)
Theorem run_with_ffmpeg env st flags fs :
  exec_LookPath st "ffmpeg" = None ->
  let out := run env st flags fs in
  let m := main env st flags fs in
  val out = val m /\ post out = post m /\
  log out =
    ((match exec_LookPath st "convert" with
      | Some _ =>
          [EvStderr
             ("Warning: ImageMagick (convert) not found. Some animated WebP files might not convert properly."
                ++ nl)]
      | None => []
      end) ++ log m)%list.
Proof.
  intros Hff out m. subst out m.
  unfold run, init, checkDependencies. rewrite Hff.
  destruct (exec_LookPath st "convert"); cbn [bind ret emit];
    destruct (main env st flags fs) as [v l s]; repeat split.
Qed.

Lemma run_with_ffmpeg_witness :
  let out := run Scenario.healthy (startup None (Some Scenario.enoent))
               (flags_for "clip.webp" false "extract") Scenario.no_dirs in
  let m := main Scenario.healthy (startup None (Some Scenario.enoent))
             (flags_for "clip.webp" false "extract") Scenario.no_dirs in
  val out = val m /\ post out = post m /\
  log out =
    ([EvStderr
        ("Warning: ImageMagick (convert) not found. Some animated WebP files might not convert properly."
           ++ nl)] ++ log m)%list.
Proof.
  apply (run_with_ffmpeg Scenario.healthy (startup None (Some Scenario.enoent))
           (flags_for "clip.webp" false "extract") Scenario.no_dirs).
  reflexivity.
Defined.

(** Extraction Converter returns success only after a reassembly that
    exited with status zero. *)
Lemma convertViaExtraction_success_reassembled
    env input output fps bitrate verbose fs :
  val (convertViaExtraction env input output fps bitrate verbose fs) = None ->
  exists args,
    In (EvExec "ffmpeg" ("-framerate" :: args) None)
       (log (convertViaExtraction env input output fps bitrate verbose fs)).
Proof.
  remember (convertViaExtraction env input output fps bitrate verbose fs)
    as out eqn:E.
  destruct verbose; exec_converter E.
  all: subst out; cbn [val log app]; unfold framesInputArgs.
  all: intros H; try discriminate H.
  all: repeat match goal with
         | |- context [if ?b then _ else _] => destruct b
         end.
  all: eexists; cbn [In app]; tauto.
Qed.

(** A conversion returns success in two ways only: with [-v], in a
    mode that starts with Direct Converter, which then returns success
    whatever became of its command; or after a reassembly that exited
    with status zero. *)
Lemma conversion_success_cases
    env input output fps bitrate verbose method fs :
  val (convertWebPToMP4 env input output fps bitrate verbose method fs) = None ->
  (verbose = true /\ method <> "extract") \/
  exists args,
    In (EvExec "ffmpeg" ("-framerate" :: args) None)
       (log (convertWebPToMP4 env input output fps bitrate verbose method fs)).
Proof.
  remember (convertWebPToMP4 env input output fps bitrate verbose method fs)
    as out eqn:E.
  destruct (String.eqb method "auto") eqn:Ha;
    destruct (String.eqb method "extract") eqn:He.
  1: (apply String.eqb_eq in Ha, He; subst method; discriminate He).
  all: exec_selector E.
  all: subst out; cbn [val log app]; intros Hval; try discriminate Hval.
  all: try match goal with
         | H : convertViaExtraction ?e ?i ?o ?f ?b ?v ?s = _ |- _ =>
             let Hre := fresh "Hre" in
             pose proof (convertViaExtraction_success_reassembled e i o f b v s)
               as Hre;
             rewrite H in Hre; cbn [val log] in Hre;
             destruct (Hre Hval) as [args Hin];
             right; exists args;
             repeat (apply in_or_app; right); exact Hin
         end.
  all: try match goal with
         | H : convertViaExtraction ?e ?i ?o ?f ?b ?v ?s = _ |- _ =>
             let Hre := fresh "Hre" in
             pose proof (convertViaExtraction_success_reassembled e i o f b v s)
               as Hre;
             rewrite H in Hre; cbn [val log] in Hre;
             destruct (Hre Hval) as [args Hin];
             right; exists args;
             apply in_or_app; right; cbn [In]; tauto
         end.
  all: match goal with
       | H : convertDirectly ?e ?i ?o ?f ?b ?v ?s = _ |- _ =>
           let Hres := fresh "Hres" in
           pose proof (convertDirectly_result e i o f b v s) as Hres;
           rewrite H in Hres; cbn [val] in Hres;
           left; split; [now apply Hres | now apply String.eqb_neq]
       end.
Qed.

(** X21.  Once the flags are parsed, the exit status of [main] is 0 or
    1.  Without [-i] it is 1, after the usage text, and nothing else
    happens.  It is 0 only when [-i] was given, the input was not
    reported missing and at least one command was issued with
    [Cmd.Run]; moreover, either [-v] was set and the method was not
    [extract], or the reassembly ran and exited with status zero.  In
    the first case nothing is known of the command: Direct Converter
    with [-v] returns success even when its process could not be
    started.  The line reporting the conversion, naming the input and
    the output path in use, is then the last thing written. *)
Theorem main_exit_status env st flags fs :
  let out := main env st flags fs in
  (val out = 0 \/ val out = 1) /\
  (flag_i flags = "" ->
   out = mkOut 1
           [EvStderr
              ("Usage: " ++ os_Args0 st
                 ++ " -i input.webp [-o output.mp4] [-fps 30] [-b 2M] [-v]"
                 ++ nl);
            EvStderr (flag_PrintDefaults st)]
           fs) /\
  (val out = 0 ->
   flag_i flags <> "" /\
   missing env (flag_i flags) = false /\
   execs (log out) <> [] /\
   ((flag_v flags = true /\ flag_method flags <> "extract") \/
    exists args,
      In (EvExec "ffmpeg" ("-framerate" :: args) None) (log out)) /\
   last (log out) (EvEnter Direct)
   = EvStdout ("Successfully converted " ++ flag_i flags ++ " to "
                 ++ defaultOutput (flag_i flags) (flag_o flags) ++ nl)).
Proof.
  intros out. subst out.
  pose proof (conversion_success_started env (flag_i flags)
                (defaultOutput (flag_i flags) (flag_o flags))
                (flag_fps flags) (flag_b flags) (flag_v flags)
                (flag_method flags) fs) as Hstarted.
  pose proof (conversion_success_cases env (flag_i flags)
                (defaultOutput (flag_i flags) (flag_o flags))
                (flag_fps flags) (flag_b flags) (flag_v flags)
                (flag_method flags) fs) as Hcases.
  remember (main env st flags fs) as out eqn:E.
  exec_main E.
  all: subst out; cbn [val log post] in *.
  - split; [now right |]. split; [reflexivity |].
    intros H. discriminate H.
  - apply String.eqb_neq in Hcase.
    split; [now right |]. split; [intros H; contradiction |].
    intros H. discriminate H.
  - apply String.eqb_neq in Hcase.
    destruct (Hstarted eq_refl) as [Hpresent Hexecs].
    split; [now left |]. split; [intros H; contradiction |].
    intros _. repeat split; auto.
    + rewrite execs_app. intros H. apply app_eq_nil in H. tauto.
    + destruct (Hcases eq_refl) as [Hloud | [args Hin]]; [now left |].
      right. exists args. apply in_or_app. now left.
    + cbn [app]. now rewrite last_last.
Qed.

Lemma main_exit_status_witness :
  let out := main Scenario.healthy (startup None None)
               (flags_for "clip.webp" false "extract") Scenario.no_dirs in
  flag_i (flags_for "clip.webp" false "extract") <> "" /\
  missing Scenario.healthy "clip.webp" = false /\
  execs (log out) <> [] /\
  ((flag_v (flags_for "clip.webp" false "extract") = true /\
    flag_method (flags_for "clip.webp" false "extract") <> "extract") \/
   exists args,
     In (EvExec "ffmpeg" ("-framerate" :: args) None) (log out)) /\
  last (log out) (EvEnter Direct)
  = EvStdout ("Successfully converted " ++ "clip.webp" ++ " to "
                ++ defaultOutput "clip.webp" "" ++ nl).
Proof.
  apply (proj2 (proj2 (main_exit_status Scenario.healthy (startup None None)
                         (flags_for "clip.webp" false "extract")
                         Scenario.no_dirs))).
  reflexivity.
Defined.

(** X22.  With a method other than [auto] and [extract], on an input
    that is not reported missing, the exit status follows [-v] alone: 0
    with it, 1 without it, whatever the transcoder did. *)
Theorem main_direct_exit_status env st flags fs :
  flag_i flags <> "" ->
  flag_method flags <> "auto" -> flag_method flags <> "extract" ->
  missing env (flag_i flags) = false ->
  val (main env st flags fs) = if flag_v flags then 0 else 1.
Proof.
  intros Hinput Hauto Hextract Hpresent.
  apply String.eqb_neq in Hinput, Hauto, Hextract.
  pose proof (convertDirectly_result env (flag_i flags)
                (defaultOutput (flag_i flags) (flag_o flags))
                (flag_fps flags) (flag_b flags) (flag_v flags) fs) as Hresult.
  unfold main, bind. rewrite Hinput.
  unfold convertWebPToMP4. unfold missing in Hpresent.
  rewrite Hpresent, Hauto, Hextract.
  destruct (convertDirectly env (flag_i flags)
              (defaultOutput (flag_i flags) (flag_o flags))
              (flag_fps flags) (flag_b flags) (flag_v flags) fs)
    as [v l s].
  cbn [val] in Hresult.
  destruct v as [err |], (flag_v flags); try reflexivity.
  - destruct Hresult as [_ H]. discriminate (H eq_refl).
  - destruct Hresult as [H _]. discriminate (H eq_refl).
Qed.

Lemma main_direct_exit_status_witness :
  val (main Scenario.healthy (startup None None)
         (flags_for "clip.webp" false "direct") Scenario.no_dirs)
  = if flag_v (flags_for "clip.webp" false "direct") then 0 else 1.
Proof.
  apply (main_direct_exit_status Scenario.healthy (startup None None)
           (flags_for "clip.webp" false "direct") Scenario.no_dirs);
    try discriminate.
  reflexivity.
Defined.

(** X23.  On an input file reported missing, in every mode, [main] ends
    with status 1 after one line on standard error naming the file; no
    converter is entered, no process is started and the filesystem is
    left alone. *)
Theorem main_missing_input env st flags fs :
  flag_i flags <> "" ->
  missing env (flag_i flags) = true ->
  main env st flags fs
  = mkOut 1
      [EvStderr (log_prefix st
                   ++ log_line ("input file does not exist: " ++ flag_i flags))]
      fs.
Proof.
  intros Hinput Hmissing.
  apply String.eqb_neq in Hinput.
  unfold main, bind. rewrite Hinput.
  unfold convertWebPToMP4. unfold missing in Hmissing.
  rewrite Hmissing. reflexivity.
Qed.

Lemma main_missing_input_witness :
  main Scenario.input_missing (startup None None)
    (flags_for "clip.webp" false "extract") Scenario.no_dirs
  = mkOut 1
      [EvStderr ("2026/11/02 12:00:00 "
                   ++ log_line ("input file does not exist: " ++ "clip.webp"))]
      Scenario.no_dirs.
Proof.
  apply (main_missing_input Scenario.input_missing (startup None None)
           (flags_for "clip.webp" false "extract") Scenario.no_dirs).
  - discriminate.
  - reflexivity.
Defined.

(** ** Verbosity and the scratch directory *)

(** X24.  Neither converter creates, lists or removes a directory other
    than the scratch directory of Extraction Converter: Direct Converter
    does none of it, and Extraction Converter creates one directory,
    lists its frame files at most once and removes that same directory
    last, or creates none. *)
Theorem scratch_directory_lifecycle env input output fps bitrate verbose fs :
  scratch_events
    (log (convertDirectly env input output fps bitrate verbose fs)) = [] /\
  let out := convertViaExtraction env input output fps bitrate verbose fs in
  match ioutil_TempDir env fs with
  | inl _ => scratch_events (log out) = []
  | inr tempDir =>
      scratch_events (log out) = [EvMkdirTemp tempDir; EvRemoveAll tempDir] \/
      exists frames,
        scratch_events (log out)
        = [EvMkdirTemp tempDir;
           EvGlob (Join tempDir "frame_*.png") frames;
           EvRemoveAll tempDir]
  end.
Proof.
  split.
  - remember (convertDirectly env input output fps bitrate verbose fs)
      as out eqn:E.
    destruct verbose; exec_converter E.
    all: subst out; reflexivity.
  - intros out. subst out.
    remember (convertViaExtraction env input output fps bitrate verbose fs)
      as out eqn:E.
    destruct verbose; exec_converter E.
    all: subst out; cbn [log app scratch_events filter]; try reflexivity.
    all: first [left; reflexivity | right; eexists; reflexivity].
Qed.

(** X25.  [-v] changes what Extraction Converter prints and nothing
    else: with and without it the converter returns the same result,
    leaves the same filesystem and, the console lines apart, does the
    same things in the same order.  For Direct Converter the same holds
    of the filesystem and of what it does. *)
Theorem verbosity_only_prints env input output fps bitrate fs :
  (let loud := convertViaExtraction env input output fps bitrate true fs in
   let quiet := convertViaExtraction env input output fps bitrate false fs in
   val loud = val quiet /\ post loud = post quiet /\
   actions (log loud) = log quiet) /\
  (let loud := convertDirectly env input output fps bitrate true fs in
   let quiet := convertDirectly env input output fps bitrate false fs in
   post loud = post quiet /\ actions (log loud) = log quiet).
Proof.
  split.
  - intros loud quiet. subst loud quiet.
    remember (convertViaExtraction env input output fps bitrate true fs)
      as loud eqn:El.
    remember (convertViaExtraction env input output fps bitrate false fs)
      as quiet eqn:Eq.
    exec_converter El; exec_converter_again Eq.
    all: subst loud quiet; cbn [val log post app actions filter negb].
    all: repeat split; try reflexivity.
    all: repeat match goal with
           | |- context [if ?b then _ else _] => destruct b
           end; reflexivity.
  - intros loud quiet. subst loud quiet.
    remember (convertDirectly env input output fps bitrate true fs)
      as loud eqn:El.
    remember (convertDirectly env input output fps bitrate false fs)
      as quiet eqn:Eq.
    exec_converter El; exec_converter_again Eq.
    all: subst loud quiet; cbn [val log post app actions filter negb].
    all: repeat split; try reflexivity.
    all: repeat match goal with
           | |- context [if ?b then _ else _] => destruct b
           end; reflexivity.
Qed.

(** X26.  With no flag but [-i], on an input that is not reported
    missing, both converters run, each once, and the exit status is
    the verdict of Extraction Converter on the state Direct Converter
    left: what the transcoder of Direct Converter did does not count. *)
Theorem main_default_flags env st input fs :
  input <> "" ->
  missing env input = false ->
  let flags := only_input input in
  let output := defaultOutput input "" in
  let direct := convertDirectly env input output 30 "2M" false fs in
  let fallback := convertViaExtraction env input output 30 "2M" false
                    (post direct) in
  let out := main env st flags fs in
  entered Direct (log out) = 1%nat /\
  entered Extraction (log out) = 1%nat /\
  (val out = 0 <-> val fallback = None) /\
  post out = post fallback.
Proof.
  intros Hinput Hpresent flags output direct fallback out.
  subst flags output direct fallback out.
  apply String.eqb_neq in Hinput.
  pose proof (convertDirectly_log env input (defaultOutput input "") 30 "2M"
                false fs) as (_ & Hd & Hx & _).
  pose proof (convertViaExtraction_log env input (defaultOutput input "") 30
                "2M" false
                (post (convertDirectly env input (defaultOutput input "") 30
                         "2M" false fs))) as (_ & Hxx & Hxd).
  remember (main env st (only_input input) fs) as out eqn:E.
  unfold only_input, default_flags in E.
  exec_main E.
  all: cbn [flag_i flag_o flag_fps flag_b flag_v flag_method] in *.
  all: try congruence.
  all: match goal with
       | H : convertWebPToMP4 _ _ _ _ _ _ _ _ = _ |- _ =>
           rewrite (auto_quiet_run env input (defaultOutput input "") 30 "2M"
                      fs Hpresent) in H;
           injection H as Hval Hlog Hpost
       end.
  all: subst out; cbn [val log post].
  all: rewrite Hval, Hpost; subst.
  all: rewrite ?entered_app, ?Hd, ?Hx, ?Hxx, ?Hxd.
  all: cbn [entered app List.filter length].
  all: repeat split; try reflexivity; try discriminate.
Qed.

Lemma main_default_flags_witness :
  let flags := only_input "clip.webp" in
  let output := defaultOutput "clip.webp" "" in
  let direct := convertDirectly Scenario.healthy "clip.webp" output 30 "2M"
                  false Scenario.no_dirs in
  let fallback := convertViaExtraction Scenario.healthy "clip.webp" output 30
                    "2M" false (post direct) in
  let out := main Scenario.healthy (startup None None) flags
               Scenario.no_dirs in
  entered Direct (log out) = 1%nat /\
  entered Extraction (log out) = 1%nat /\
  (val out = 0 <-> val fallback = None) /\
  post out = post fallback.
Proof.
  apply (main_default_flags Scenario.healthy (startup None None) "clip.webp"
           Scenario.no_dirs).
  - discriminate.
  - reflexivity.
Defined.
